(** * localstack: response helpers and the template deployment contract

    A shallow embedding of [localstack/utils/aws/aws_responses.py] together
    with the parts of Python, [json], Flask/werkzeug and [requests] that the
    four functions of that module rely on, followed by the properties the
    specification states about them.

    Conventions.
    - A Python [str] is a Rocq [string] whose characters are the code points
      U+0000..U+00FF; a Python [bytes] is a Rocq [string] whose characters are
      the byte values.  The two are kept apart by the constructors [PyStr]
      and [PyBytes].
    - A Python [dict] is an association list in insertion order.
    - A Python exception is a value of [exn]; a function that can raise
      returns a [result]. *)

From Stdlib Require Import ZArith NArith List String Ascii Bool Lia.
From Stdlib Require Import DecimalString.
Import ListNotations.
Local Open Scope string_scope.
Local Open Scope Z_scope.
Set Warnings "-register-all".

(** ** Python values *)

Module Py.

Inductive exn : Type :=
| TypeError
| ValueError.

Inductive result (A : Type) : Type :=
| Ok (a : A)
| Raise (e : exn).
Arguments Ok {A} a.
Arguments Raise {A} e.

Definition bind {A B} (m : result A) (k : A -> result B) : result B :=
  match m with
  | Ok a => k a
  | Raise e => Raise e
  end.

Inductive pyval : Type :=
| PyNone
| PyBool (b : bool)
| PyInt (z : Z)
| PyStr (s : string)
| PyBytes (b : string)
| PyList (l : list pyval)
| PyDict (d : list (pyval * pyval)).

(** [isinstance(v, dict)] *)
Definition isinstance_dict (v : pyval) : bool :=
  match v with
  | PyDict _ => true
  | _ => false
  end.

(** An omitted keyword argument takes its default. *)
Definition kwarg {A} (default : A) (given : option A) : A :=
  match given with
  | Some a => a
  | None => default
  end.

(** The characters that cannot be written inside a Rocq string literal. *)
Definition dquote : ascii := Eval cbv in ascii_of_nat 34.
Definition backslash : ascii := Eval cbv in ascii_of_nat 92.
Definition LF : ascii := Eval cbv in ascii_of_nat 10.
Definition CR : ascii := Eval cbv in ascii_of_nat 13.

Definition chr (n : N) : ascii := ascii_of_N n.
Definition ord (c : ascii) : N := N_of_ascii c.

Definition str1 (c : ascii) : string := String c EmptyString.

(** [str(n)] for a length and [repr(z)] for an integer. *)
Definition str_of_nat (n : nat) : string :=
  NilZero.string_of_uint (Nat.to_uint n).
Definition repr_int (z : Z) : string :=
  NilZero.string_of_int (Z.to_int z).

(** [s.lower()] on the code points below U+0100: the capital letters
    A..Z and U+00C0..U+00DE (without the multiplication sign U+00D7) move
    up by 32. *)
Definition lower_char (c : ascii) : ascii :=
  let n := ord c in
  if ((65 <=? n) && (n <=? 90))%N then chr (n + 32)
  else if ((192 <=? n) && (n <=? 222) && negb (n =? 215))%N then chr (n + 32)
  else c.

Fixpoint lower (s : string) : string :=
  match s with
  | EmptyString => EmptyString
  | String c s' => String (lower_char c) (lower s')
  end.

(** [s.encode('utf-8')] on the code points below U+0100. *)
Fixpoint utf8_encode (s : string) : string :=
  match s with
  | EmptyString => EmptyString
  | String c s' =>
      let n := ord c in
      if (n <? 128)%N then String c (utf8_encode s')
      else String (chr (192 + N.shiftr n 6))
             (String (chr (128 + N.land n 63)) (utf8_encode s'))
  end.

(** [b.decode('utf-8')], defined where the result stays below U+0100. *)
Fixpoint utf8_decode (b : string) : option string :=
  match b with
  | EmptyString => Some EmptyString
  | String c b' =>
      let n := ord c in
      if (n <? 128)%N then option_map (String c) (utf8_decode b')
      else if ((n =? 194) || (n =? 195))%N then
        match b' with
        | String c2 b'' =>
            let m := ord c2 in
            if ((128 <=? m) && (m <? 192))%N
            then option_map (String (chr ((n - 192) * 64 + (m - 128))))
                   (utf8_decode b'')
            else None
        | EmptyString => None
        end
      else None
  end.

End Py.
Export Py.

Declare Scope py_scope.
Notation "x <- m ;; k" := (Py.bind m (fun x => k))
  (at level 61, m at next level, right associativity) : py_scope.
Local Open Scope py_scope.

(** ** The [json] module: [json.dumps] with its default arguments

    [ensure_ascii=True], separators [", "] and [": "], no indentation, keys
    in dictionary order. *)

Module Json.

Definition hex_digit (n : N) : ascii :=
  if (n <? 10)%N then chr (48 + n) else chr (87 + n).

(** [ESCAPE_DCT] and the [replace] callback of
    [py_encode_basestring_ascii]: the quote and the backslash get a
    backslash, five control characters have a letter, the printable ASCII
    characters stand for themselves and everything else is [\u00xx]. *)
Definition escape_char (c : ascii) : string :=
  let n := ord c in
  if (n =? 34)%N then String backslash (str1 dquote)
  else if (n =? 92)%N then String backslash (str1 backslash)
  else if (n =? 8)%N then String backslash "b"
  else if (n =? 12)%N then String backslash "f"
  else if (n =? 10)%N then String backslash "n"
  else if (n =? 13)%N then String backslash "r"
  else if (n =? 9)%N then String backslash "t"
  else if ((32 <=? n) && (n <=? 126))%N then str1 c
  else String backslash
         (String "u" (String "0" (String "0"
            (String (hex_digit (N.shiftr n 4))
               (str1 (hex_digit (N.land n 15))))))).

Fixpoint escape (s : string) : string :=
  match s with
  | EmptyString => EmptyString
  | String c s' => escape_char c ++ escape s'
  end.

Definition encode_basestring_ascii (s : string) : string :=
  String dquote (escape s ++ str1 dquote).

(** A dictionary key: [str] as it is, [int], [bool] and [None] through
    their JSON text, anything else is a [TypeError] ([skipkeys=False]). *)
Definition encode_key (k : pyval) : result string :=
  match k with
  | PyStr s => Ok (encode_basestring_ascii s)
  | PyInt z => Ok (encode_basestring_ascii (repr_int z))
  | PyBool true => Ok (encode_basestring_ascii "true")
  | PyBool false => Ok (encode_basestring_ascii "false")
  | PyNone => Ok (encode_basestring_ascii "null")
  | _ => Raise TypeError
  end.

Fixpoint dumps (v : pyval) : result string :=
  match v with
  | PyNone => Ok "null"
  | PyBool true => Ok "true"
  | PyBool false => Ok "false"
  | PyInt z => Ok (repr_int z)
  | PyStr s => Ok (encode_basestring_ascii s)
  | PyBytes _ => Raise TypeError
  | PyList l =>
      items <- (fix each (l : list pyval) : result (list string) :=
                  match l with
                  | [] => Ok []
                  | x :: l' =>
                      sx <- dumps x ;; rest <- each l' ;; Ok (sx :: rest)
                  end) l ;;
      Ok ("[" ++ String.concat ", " items ++ "]")
  | PyDict d =>
      items <- (fix each (d : list (pyval * pyval)) : result (list string) :=
                  match d with
                  | [] => Ok []
                  | (k, x) :: d' =>
                      sk <- encode_key k ;;
                      sx <- dumps x ;;
                      rest <- each d' ;;
                      Ok ((sk ++ ": " ++ sx) :: rest)
                  end) d ;;
      Ok ("{" ++ String.concat ", " items ++ "}")
  end.

(** A dict whose keys and values are all [str], and the text of one of its
    items. *)
Definition str_item (kv : string * string) : pyval * pyval :=
  (PyStr (fst kv), PyStr (snd kv)).

Definition str_dict (d : list (string * string)) : pyval :=
  PyDict (map str_item d).

Definition item_text (kv : string * string) : string :=
  encode_basestring_ascii (fst kv) ++ ": " ++ encode_basestring_ascii (snd kv).

(** *** Reading a serialized object back

    The members of a JSON object whose values are all strings, in the order
    of the text.  Used to state what a serialized body contains. *)

Definition hex_value (c : ascii) : option N :=
  let n := ord c in
  if ((48 <=? n) && (n <=? 57))%N then Some (n - 48)%N
  else if ((97 <=? n) && (n <=? 102))%N then Some (n - 87)%N
  else if ((65 <=? n) && (n <=? 70))%N then Some (n - 55)%N
  else None.

Definition hex4 (a b c d : ascii) : option N :=
  match hex_value a, hex_value b, hex_value c, hex_value d with
  | Some x, Some y, Some z, Some w => Some (((x * 16 + y) * 16 + z) * 16 + w)%N
  | _, _, _, _ => None
  end.

(** The text after an opening quote: the decoded string and what follows
    the closing quote. *)
Definition cons (c : ascii) (r : option (string * string))
  : option (string * string) :=
  match r with
  | Some (t, rest) => Some (String c t, rest)
  | None => None
  end.

Fixpoint scan_string (s : string) : option (string * string) :=
  match s with
  | EmptyString => None
  | String c s1 =>
      if (ord c =? 34)%N then Some (EmptyString, s1)
      else if (ord c =? 92)%N then
        match s1 with
        | EmptyString => None
        | String e s2 =>
            let n := ord e in
            if (n =? 34)%N then cons dquote (scan_string s2)
            else if (n =? 92)%N then cons backslash (scan_string s2)
            else if (n =? 47)%N then cons "/"%char (scan_string s2)
            else if (n =? 98)%N then cons (chr 8) (scan_string s2)
            else if (n =? 102)%N then cons (chr 12) (scan_string s2)
            else if (n =? 110)%N then cons (chr 10) (scan_string s2)
            else if (n =? 114)%N then cons (chr 13) (scan_string s2)
            else if (n =? 116)%N then cons (chr 9) (scan_string s2)
            else if (n =? 117)%N then
              match s2 with
              | String h1 (String h2 (String h3 (String h4 s3))) =>
                  match hex4 h1 h2 h3 h4 with
                  | Some v =>
                      if (v <? 256)%N then cons (chr v) (scan_string s3)
                      else None
                  | None => None
                  end
              | _ => None
              end
            else None
        end
      else if (ord c <? 32)%N then None
      else cons c (scan_string s1)
  end.

(** [ "k": "v" ] pairs separated by [", "] up to the closing brace. *)
Fixpoint scan_members (fuel : nat) (s : string)
  : option (list (string * string) * string) :=
  match fuel with
  | O => None
  | S fuel' =>
      match s with
      | String q s1 =>
          if negb (ord q =? 34)%N then None else
          match scan_string s1 with
          | Some (k, String ":" (String " " (String q2 s2))) =>
              if negb (ord q2 =? 34)%N then None else
              match scan_string s2 with
              | Some (v, String "}" rest) => Some ([(k, v)], rest)
              | Some (v, String "," (String " " rest)) =>
                  match scan_members fuel' rest with
                  | Some (m, rest') => Some ((k, v) :: m, rest')
                  | None => None
                  end
              | _ => None
              end
          | _ => None
          end
      | EmptyString => None
      end
  end.

Definition object_members (s : string) : option (list (string * string)) :=
  match s with
  | String "{" (String "}" EmptyString) => Some []
  | String "{" s1 =>
      match scan_members (String.length s1) s1 with
      | Some (m, EmptyString) => Some m
      | _ => None
      end
  | _ => None
  end.

End Json.

(** ** werkzeug's [Headers] and Python's [dict] of headers

    A [Headers] object is an ordered list of name/value pairs that may
    repeat a name; names compare without regard to case.  A [dict] holds
    each key once. *)

Module Werkzeug.

Definition Headers : Type := list (string * string).
Definition Dict : Type := list (string * string).

Definition same_name (a b : string) : bool := String.eqb (lower a) (lower b).

(** [key in headers] *)
Definition contains (h : Headers) (key : string) : bool :=
  existsb (fun kv => same_name (fst kv) key) h.

(** [headers[key]]: the value of the first pair with that name. *)
Fixpoint getitem (h : Headers) (key : string) : option string :=
  match h with
  | [] => None
  | (k, v) :: h' => if same_name k key then Some v else getitem h' key
  end.

(** [_validate_value]: a header value must hold no line feed and no
    carriage return; werkzeug raises [ValueError] for one that does. *)
Fixpoint legal_value (value : string) : bool :=
  match value with
  | EmptyString => true
  | String c value' =>
      negb ((ord c =? 10)%N || (ord c =? 13)%N) && legal_value value'
  end.

Definition legal_headers (h : list (string * string)) : bool :=
  forallb (fun kv => legal_value (snd kv)) h.

(** [headers.add(key, value)]: the value is checked, then the pair is
    appended. *)
Definition add (h : Headers) (key value : string) : result Headers :=
  if legal_value value then Ok (h ++ [(key, value)])%list
  else Raise ValueError.

(** What [Headers.set] does to the list once the value has passed its
    check: the first pair with that name is replaced where it stands and the
    later ones are dropped; a new name is appended. *)
Fixpoint set (h : Headers) (key value : string) : Headers :=
  match h with
  | [] => [(key, value)]
  | (k, v) :: h' =>
      if same_name k key
      then (key, value) :: filter (fun kv => negb (same_name (fst kv) key)) h'
      else (k, v) :: set h' key value
  end.

(** [headers[key] = value], that is [Headers.set]: the value is checked,
    then the list is changed. *)
Definition setitem (h : Headers) (key value : string) : result Headers :=
  if legal_value value then Ok (set h key value) else Raise ValueError.

(** [headers.extend(d)] for a dict [d]: one [add] per item, in order; the
    first value that fails its check ends the loop. *)
Fixpoint extend (h : Headers) (d : Dict) : result Headers :=
  match d with
  | [] => Ok h
  | (k, v) :: d' => h' <- add h k v ;; extend h' d'
  end.

(** [Headers(d)] for a dict [d]. *)
Definition of_dict (d : Dict) : result Headers := extend [] d.

(** [d[key] = value] on a dict. *)
Fixpoint dict_setitem (d : Dict) (key value : string) : Dict :=
  match d with
  | [] => [(key, value)]
  | (k, v) :: d' =>
      if String.eqb k key then (k, value) :: d'
      else (k, v) :: dict_setitem d' key value
  end.

(** [dict(headers)]: [Headers] has a [keys] method, so [dict] reads it as a
    mapping, [d[k] = headers[k]] for every [k] of [headers.keys()]. *)
Definition dict_of_headers (h : Headers) : Dict :=
  fold_left
    (fun d kv =>
       match getitem h (fst kv) with
       | Some v => dict_setitem d (fst kv) v
       | None => d
       end)
    h [].

(** What the callers pass as [headers]: a dict or a [Headers] object. *)
Inductive header_arg : Type :=
| AsDict (d : Dict)
| AsHeaders (h : Headers).

(** [dict(x)] *)
Definition to_dict (x : header_arg) : Dict :=
  match x with
  | AsDict d => d
  | AsHeaders h => dict_of_headers h
  end.

(** The header names, compared the way [Headers] compares them. *)
Definition names (h : Headers) : list string := map (fun kv => lower (fst kv)) h.

(** No name occurs twice. *)
Fixpoint distinct (l : list string) : bool :=
  match l with
  | [] => true
  | x :: l' => negb (existsb (String.eqb x) l') && distinct l'
  end.

Definition distinct_names (h : Headers) : bool := distinct (names h).

End Werkzeug.

(** ** Flask's [Response]

    The constructor as called in this module: [Response(response, status=,
    headers=)] with an integer status and a [str], [bytes] or absent body.
    A dict of headers goes through [Headers(d)], which checks every value; a
    [Headers] object is taken as it is. *)

Module Flask.
Import Werkzeug.

Inductive body : Type :=
| NoBody
| Text (s : string)
| Bytes (b : string).

Record FlaskResponse : Type := mkFlaskResponse {
  data : string;
  status_code : Z;
  headers : Headers
}.

Definition default_content_type : string := "text/html; charset=utf-8".

(** [set_data]: the body as bytes, and its length as [Content-Length]. *)
Definition set_data (value : string) (status : Z) (h : Headers)
  : result FlaskResponse :=
  h' <- setitem h "Content-Length" (str_of_nat (String.length value)) ;;
  Ok {| data := value; status_code := status; headers := h' |}.

Definition Response (response : body) (status : Z) (hdrs : header_arg)
  : result FlaskResponse :=
  h0 <- match hdrs with
        | AsHeaders h => Ok h
        | AsDict d => of_dict d
        end ;;
  h1 <- (if contains h0 "content-type" then Ok h0
         else setitem h0 "Content-Type" default_content_type) ;;
  match response with
  | NoBody => Ok {| data := EmptyString; status_code := status; headers := h1 |}
  | Text s => set_data (utf8_encode s) status h1
  | Bytes b => set_data b status h1
  end.

(** The response that the constructor returns over the headers [h0] when no
    check fails. *)
Definition assemble (response : body) (status : Z) (h0 : Headers)
  : FlaskResponse :=
  let h1 := if contains h0 "content-type" then h0
            else set h0 "Content-Type" default_content_type in
  let with_data (value : string) :=
    {| data := value;
       status_code := status;
       headers := set h1 "Content-Length" (str_of_nat (String.length value)) |} in
  match response with
  | NoBody => {| data := EmptyString; status_code := status; headers := h1 |}
  | Text s => with_data (utf8_encode s)
  | Bytes b => with_data b
  end.

(** The body kinds above, as Python values. *)
Definition as_body (v : pyval) : option body :=
  match v with
  | PyNone => Some NoBody
  | PyStr s => Some (Text s)
  | PyBytes b => Some (Bytes b)
  | _ => None
  end.

End Flask.

(** ** [requests.models.Response] *)

Module Requests.
Import Werkzeug.

Record RequestsResponse : Type := mkRequestsResponse {
  _content : pyval;
  status_code : Z;
  headers : header_arg
}.

(** The [content] property: a [_content] that is [False] means "not read
    yet", and with no raw stream to read it becomes [None]. *)
Definition content (r : RequestsResponse) : pyval :=
  match _content r with
  | PyBool false => PyNone
  | c => c
  end.

End Requests.

(** ** [localstack/utils/aws/aws_responses.py] *)

Module aws_responses.
Import Werkzeug.

Definition flask_error_response
  (msg : pyval) (code : option Z) (error_type : option string)
  : result Flask.FlaskResponse :=
  let code := kwarg 500 code in
  let error_type := kwarg "InternalFailure" error_type in
  let result :=
    PyDict [ (PyStr "Type", PyStr (if code <? 500 then "User" else "Server"));
             (PyStr "message", msg);
             (PyStr "__type", PyStr error_type) ] in
  let headers := AsDict [("x-amzn-errortype", error_type)] in
  text <- Json.dumps result ;;
  Flask.Response (Flask.Text text) code headers.

(** The default of [headers], [{}]: one dict, made when the function is
    defined and shared by every call that gives no headers.  Nothing in this
    module writes to it. *)
Definition requests_response_headers : header_arg := AsDict [].

Definition requests_response
  (content : pyval) (status_code : option Z) (headers : option header_arg)
  : result Requests.RequestsResponse :=
  let status_code := kwarg 200 status_code in
  let headers := kwarg requests_response_headers headers in
  content <- (if isinstance_dict content
              then text <- Json.dumps content ;; Ok (PyStr text)
              else Ok content) ;;
  Ok {| Requests._content := content;
        Requests.status_code := status_code;
        Requests.headers := headers |}.

Definition flask_to_requests_response (r : Flask.FlaskResponse)
  : result Requests.RequestsResponse :=
  requests_response (PyBytes (Flask.data r))
    (Some (Flask.status_code r)) (Some (AsHeaders (Flask.headers r))).

(** [None] stands for a content that is neither absent, [str] nor [bytes]:
    Flask would iterate over it, which is not modelled.  Otherwise the call
    returns or raises as the constructor does. *)
Definition requests_to_flask_response (r : Requests.RequestsResponse)
  : option (result Flask.FlaskResponse) :=
  match Flask.as_body (Requests.content r) with
  | Some b =>
      Some (Flask.Response b (Requests.status_code r)
              (AsDict (to_dict (Requests.headers r))))
  | None => None
  end.

End aws_responses.
Import aws_responses.

(** ** Definitions used to state the properties *)

(** What the serialized body of a response holds. *)
Definition body_members (r : Flask.FlaskResponse)
  : option (list (string * string)) :=
  match utf8_decode (Flask.data r) with
  | Some text => Json.object_members text
  | None => None
  end.

Definition body_field (r : Flask.FlaskResponse) (name : string)
  : option string :=
  match body_members r with
  | Some m => option_map snd (find (fun kv => String.eqb (fst kv) name) m)
  | None => None
  end.

(** The three items of the dict that [flask_error_response] serializes. *)
Definition envelope (msg : string) (code : Z) (error_type : string)
  : list (string * string) :=
  [ ("Type", if code <? 500 then "User" else "Server");
    ("message", msg);
    ("__type", error_type) ].

(** A response with two cookies, as the constructor builds it from the body
    ["ok"], status 200 and a [Headers] object with the two cookies. *)
Definition two_cookies : Flask.FlaskResponse :=
  {| Flask.data := "ok";
     Flask.status_code := 200;
     Flask.headers := [("Set-Cookie", "a=1"); ("Set-Cookie", "b=2");
                       ("Content-Type", "text/html; charset=utf-8");
                       ("Content-Length", "2")] |}.

(** The error response of status 404 used as an example. *)
Definition not_found : Flask.FlaskResponse :=
  {| Flask.data := "gone";
     Flask.status_code := 404;
     Flask.headers := [("x-amzn-errortype", "NotFound");
                       ("Content-Type", "text/html; charset=utf-8");
                       ("Content-Length", "4")] |}.


(** ** The template deployment engine

    The engine itself (template parser, expression resolver, dependency
    graph builder, resource provisioner, stack lifecycle manager) is not
    among the source files; only its integration test is.  The definitions
    of this module follow the specification.  Timestamps are left out. *)

Module Engine.

(** Modelled from the spec: the intrinsic expressions of section 4.2
    (literal, reference to a parameter or a resource, attribute reference,
    string join); the expression type of the absent Expression Resolver. *)
Inductive expr : Type :=
| Lit (value : string)
| Ref (name : string)
| GetAtt (name attribute : string)
| Join (separator : string) (parts : list expr).

(** Modelled from the spec: the ResourceSpec of section 3, absent from the
    sources. *)
Record ResourceSpec : Type := mkResourceSpec {
  logical_name : string;
  resource_type : string;
  properties : list (string * expr);
  depends_on : list string
}.

(** Modelled from the spec: the Template of section 3, absent from the
    sources; parameters carry their default value. *)
Record Template : Type := mkTemplate {
  parameters : list (string * string);
  resources : list ResourceSpec;
  outputs : list (string * expr)
}.

(** Modelled from the spec: the error taxonomy of section 7. *)
Inductive error : Type :=
| TemplateSyntaxError
| TemplateSchemaError
| DanglingReferenceError (name : string)
| CyclicDependencyError (names : list string)
| UnresolvedDependencyError (name : string)
| UnsupportedResourceTypeError (resource_type : string)
| ResourceOperationError (resource_type message : string)
| StackAlreadyExistsError
| StackNotFoundError.

(** Modelled from the spec: the per-resource status states of section 4.5,
    [PENDING], [IN_PROGRESS] and the [_COMPLETE] and [_FAILED] variants of
    the three operation families. *)
Inductive operation : Type := CREATE | UPDATE | DELETE.

Inductive status : Type :=
| PENDING
| IN_PROGRESS
| COMPLETE (op : operation)
| FAILED (op : operation).

Definition is_complete (s : status) : bool :=
  match s with COMPLETE _ => true | _ => false end.

Definition is_failed (s : status) : bool :=
  match s with FAILED _ => true | _ => false end.

(** Modelled from the spec: the glossary's terminal states are the
    [_COMPLETE] and [_FAILED] ones. *)
Definition non_terminal (s : status) : bool :=
  match s with PENDING | IN_PROGRESS => true | _ => false end.

(** Modelled from the spec: the ResolvedResource of section 3. *)
Record ResolvedResource : Type := mkResolvedResource {
  res_name : string;
  res_type : string;
  resolved_properties : list (string * string);
  physical_id : option string;
  attributes : list (string * string);
  res_status : status;
  last_error : option error
}.

(** Modelled from the spec: the StackEvent of section 3. *)
Record StackEvent : Type := mkStackEvent {
  event_name : string;
  event_type : string;
  event_status : status;
  event_reason : option error
}.

(** Modelled from the spec: the Stack of section 3; [rollback_succeeded]
    records whether a compensating rollback succeeded (section 4.5,
    step 6). *)
Record Stack : Type := mkStack {
  stack_name : string;
  stack_template : Template;
  parameter_values : list (string * string);
  events : list StackEvent;
  stack_resources : list ResolvedResource;
  rollback_succeeded : bool
}.

(** Modelled from the spec: the stack-name-keyed store of live stacks of
    section 9. *)
Definition Store : Type := list (string * Stack).

Definition lookup {A} (key : string) (l : list (string * A)) : option A :=
  option_map snd (find (fun kv => String.eqb (fst kv) key) l).

Definition mem (x : string) (l : list string) : bool :=
  existsb (String.eqb x) l.

(** *** Dependency Graph Builder (section 4.3) *)

(** Modelled from the spec: the dry scan of an expression for the logical
    names its references mention. *)
Fixpoint mentions (e : expr) : list string :=
  match e with
  | Lit _ => []
  | Ref n => [n]
  | GetAtt n _ => [n]
  | Join _ parts => flat_map mentions parts
  end.

(** Modelled from the spec: the edges of one resource, its explicit
    dependency list and every name its properties refer to; a reference to
    a declared parameter is not an edge. *)
Definition edges (t : Template) (r : ResourceSpec) : list string :=
  (depends_on r ++
   filter (fun n => negb (mem n (map fst (parameters t))))
     (flat_map (fun p => mentions (snd p)) (properties r)))%list.

Definition declared (t : Template) : list string :=
  map logical_name (resources t).

(** Modelled from the spec: the first name of an edge that the template
    does not declare. *)
Definition dangling (t : Template) : option string :=
  find (fun n => negb (mem n (declared t)))
    (flat_map (edges t) (resources t)).

(** Modelled from the spec: the deterministic topological order; among the
    resources whose dependencies are all placed, the first in declaration
    order goes next.  [None] when resources remain and none is ready, which
    is a cycle. *)
Fixpoint order (t : Template) (fuel : nat)
  (remaining : list ResourceSpec) (placed : list string)
  : option (list ResourceSpec) :=
  match remaining with
  | [] => Some []
  | _ :: _ =>
      match fuel with
      | O => None
      | S fuel' =>
          match find (fun r => forallb (fun n => mem n placed) (edges t r))
                  remaining with
          | Some r =>
              option_map (cons r)
                (order t fuel'
                   (filter (fun r' => negb (String.eqb (logical_name r')
                                              (logical_name r))) remaining)
                   (logical_name r :: placed))
          | None => None
          end
      end
  end.

(** Modelled from the spec: [build(template)], failing on a dangling
    reference or on a cycle, and giving the apply order otherwise. *)
Definition build (t : Template) : error + list ResourceSpec :=
  match dangling t with
  | Some n => inl (DanglingReferenceError n)
  | None =>
      match order t (List.length (resources t)) (resources t) [] with
      | Some o => inr o
      | None => inl (CyclicDependencyError (declared t))
      end
  end.

(** *** Expression Resolver (section 4.2) *)

Definition find_resource (name : string) (rs : list ResolvedResource)
  : option ResolvedResource :=
  find (fun r => String.eqb (res_name r) name) rs.

(** Modelled from the spec: [resolve(expr, context)]; the context is the
    parameter values (pseudo-parameters among them) and the resources
    resolved so far.  A reference to a resource that has not reached
    [_COMPLETE] is an [UnresolvedDependencyError], a reference to an unknown
    name a [DanglingReferenceError]; a join resolves its parts first. *)
Fixpoint resolve (params : list (string * string))
  (rs : list ResolvedResource) (e : expr) : error + string :=
  match e with
  | Lit v => inr v
  | Ref n =>
      match lookup n params with
      | Some v => inr v
      | None =>
          match find_resource n rs with
          | Some r =>
              match is_complete (res_status r), physical_id r with
              | true, Some id => inr id
              | _, _ => inl (UnresolvedDependencyError n)
              end
          | None => inl (DanglingReferenceError n)
          end
      end
  | GetAtt n a =>
      match find_resource n rs with
      | Some r =>
          match is_complete (res_status r), lookup a (attributes r) with
          | true, Some v => inr v
          | _, _ => inl (UnresolvedDependencyError n)
          end
      | None => inl (DanglingReferenceError n)
      end
  | Join sep parts =>
      match (fix each (l : list expr) : error + list string :=
               match l with
               | [] => inr []
               | p :: l' =>
                   match resolve params rs p, each l' with
                   | inr v, inr vs => inr (v :: vs)
                   | inl err, _ => inl err
                   | _, inl err => inl err
                   end
               end) parts with
      | inr vs => inr (String.concat sep vs)
      | inl err => inl err
      end
  end.

(** Modelled from the spec: the properties of a resource, resolved in
    order; the first failure is the result. *)
Fixpoint resolve_properties (params : list (string * string))
  (rs : list ResolvedResource) (props : list (string * expr))
  : error + list (string * string) :=
  match props with
  | [] => inr []
  | (k, e) :: props' =>
      match resolve params rs e with
      | inl err => inl err
      | inr v =>
          match resolve_properties params rs props' with
          | inl err => inl err
          | inr vs => inr ((k, v) :: vs)
          end
      end
  end.

(** *** Resource Provisioner (section 4.4) *)

(** Modelled from the spec: a backing service's [create(properties) ->
    (physical_id, attributes)] of section 6, failing with a message. *)
Definition service : Type :=
  list (string * string) -> string + (string * list (string * string)).

Section Apply.

(** The backing services, looked up by resource type, and the template
    parser with the capabilities it reports are external to the engine. *)
Variable services : string -> option service.
Variable parse : string -> error + Template.
Variable capabilities : Template -> list string.

(** Modelled from the spec: [create(resolved_resource)], dispatched through
    the type-keyed lookup; an unknown type is an
    [UnsupportedResourceTypeError] and a service failure a
    [ResourceOperationError]. *)
Definition create (resource_type : string) (props : list (string * string))
  : error + (string * list (string * string)) :=
  match services resource_type with
  | None => inl (UnsupportedResourceTypeError resource_type)
  | Some svc =>
      match svc props with
      | inl message => inl (ResourceOperationError resource_type message)
      | inr made => inr made
      end
  end.

(** *** Stack Lifecycle Manager (section 4.5) *)

Definition pending (r : ResourceSpec) : ResolvedResource :=
  {| res_name := logical_name r;
     res_type := resource_type r;
     resolved_properties := [];
     physical_id := None;
     attributes := [];
     res_status := PENDING;
     last_error := None |}.

(** Modelled from the spec: step 2 of the apply algorithm, a new stack with
    every resource [PENDING]; a given parameter value overrides the
    template's default. *)
Definition new_stack (name : string) (t : Template)
  (given : list (string * string)) : Stack :=
  {| stack_name := name;
     stack_template := t;
     parameter_values := (given ++ parameters t)%list;
     events := [];
     stack_resources := map pending (resources t);
     rollback_succeeded := false |}.

Definition update_resource (r : ResolvedResource)
  (rs : list ResolvedResource) : list ResolvedResource :=
  map (fun r' => if String.eqb (res_name r') (res_name r) then r else r') rs.

Definition event_of (r : ResolvedResource) : StackEvent :=
  {| event_name := res_name r;
     event_type := res_type r;
     event_status := res_status r;
     event_reason := last_error r |}.

(** One transition of one resource: the resource is replaced in the stack
    and the event is appended. *)
Definition transition (st : Stack) (r : ResolvedResource) : Stack :=
  {| stack_name := stack_name st;
     stack_template := stack_template st;
     parameter_values := parameter_values st;
     events := (events st ++ [event_of r])%list;
     stack_resources := update_resource r (stack_resources st);
     rollback_succeeded := rollback_succeeded st |}.

Definition dependency_complete (st : Stack) (name : string) : bool :=
  match find_resource name (stack_resources st) with
  | Some r => is_complete (res_status r)
  | None => false
  end.

(** Modelled from the spec: steps 3 to 5 for one resource of the order.  A
    resource whose dependencies are all complete has its properties
    resolved, goes [IN_PROGRESS] and is handed to the provisioner; success
    records the physical identifier and [CREATE_COMPLETE], failure records
    the error and [CREATE_FAILED].  A resource with a dependency that is not
    complete stays [PENDING]; independent resources go on. *)
Definition provision (st : Stack) (r : ResourceSpec) : Stack :=
  if forallb (dependency_complete st) (edges (stack_template st) r) then
    let failed (st' : Stack) (props : list (string * string)) (err : error) :=
      transition st'
        {| res_name := logical_name r; res_type := resource_type r;
           resolved_properties := props; physical_id := None;
           attributes := []; res_status := FAILED CREATE;
           last_error := Some err |} in
    match resolve_properties (parameter_values st) (stack_resources st)
            (properties r) with
    | inl err => failed st [] err
    | inr props =>
        let st1 :=
          transition st
            {| res_name := logical_name r; res_type := resource_type r;
               resolved_properties := props; physical_id := None;
               attributes := []; res_status := IN_PROGRESS;
               last_error := None |} in
        match create (resource_type r) props with
        | inr (id, attrs) =>
            transition st1
              {| res_name := logical_name r; res_type := resource_type r;
                 resolved_properties := props; physical_id := Some id;
                 attributes := attrs; res_status := COMPLETE CREATE;
                 last_error := None |}
        | inl err => failed st1 props err
        end
    end
  else st.

(** Modelled from the spec: the validation-only path, sections 4.1 to 4.3
    without the provisioner. *)
Definition validate (template_body : string)
  : error + (Template * list ResourceSpec) :=
  match parse template_body with
  | inl err => inl err
  | inr t =>
      match build t with
      | inl err => inl err
      | inr o => inr (t, o)
      end
  end.

(** Modelled from the spec: [CreateStack(name, template_body, parameters)
    -> stack_id], failing when the name denotes a live stack; a validation
    error aborts the apply before any resource is touched. *)
Definition CreateStack (store : Store) (name template_body : string)
  (given : list (string * string)) : (error + string) * Store :=
  match lookup name store with
  | Some _ => (inl StackAlreadyExistsError, store)
  | None =>
      match validate template_body with
      | inl err => (inl err, store)
      | inr (t, o) =>
          (inr name,
           (name, fold_left provision o (new_stack name t given)) :: store)
      end
  end.

(** Modelled from the spec: [ValidateTemplate(template_body) ->
    {parameters, capabilities} | ValidationError]; it reads no stack and
    leaves the store as it is. *)
Definition ValidateTemplate (store : Store) (template_body : string)
  : (error + (list (string * string) * list string)) * Store :=
  match validate template_body with
  | inl err => (inl err, store)
  | inr (t, _) => (inr (parameters t, capabilities t), store)
  end.

End Apply.

(** Modelled from the spec: the message of a validation error at the
    boundary; the spec fixes the one of a syntax error. *)
Definition message (err : error) : string :=
  match err with
  | TemplateSyntaxError => "Template Validation Error"
  | TemplateSchemaError => "Template Schema Error"
  | DanglingReferenceError n => "Dangling reference: " ++ n
  | CyclicDependencyError _ => "Cyclic dependency"
  | UnresolvedDependencyError n => "Unresolved dependency: " ++ n
  | UnsupportedResourceTypeError ty => "Unsupported resource type: " ++ ty
  | ResourceOperationError _ m => m
  | StackAlreadyExistsError => "Stack already exists"
  | StackNotFoundError => "Stack not found"
  end.

(** Modelled from the spec: the error envelope of section 6 for a
    validation error, a client-caused failure of status 400, built by
    [flask_error_response]. *)
Definition validation_error_response (err : error)
  : result Flask.FlaskResponse :=
  flask_error_response (PyStr (message err)) (Some 400)
    (Some "ValidationError").

(** Modelled from the spec: the stack statuses of section 4.5, step 6. *)
Inductive stack_status : Type :=
| CREATE_COMPLETE
| CREATE_FAILED
| STACK_IN_PROGRESS.

(** Modelled from the spec: the three rules of step 6, each as the spec
    words it: [CREATE_COMPLETE] when every resource reached [_COMPLETE],
    [CREATE_FAILED] when some resource reached [_FAILED] and no compensating
    rollback succeeded, [IN_PROGRESS] while some resource is non-terminal. *)
Definition derives (rs : list status) (rolled_back : bool)
  (s : stack_status) : bool :=
  match s with
  | CREATE_COMPLETE => forallb is_complete rs
  | CREATE_FAILED => existsb is_failed rs && negb rolled_back
  | STACK_IN_PROGRESS => existsb non_terminal rs
  end.

Definition statuses (st : Stack) : list status :=
  map res_status (stack_resources st).

(** Modelled from the spec: the derived overall status, the one status the
    rules give for these resource statuses.  The spec orders the three rules
    in no way, so where they give no status or more than one the result is
    [None]. *)
Definition status_of (rs : list status) (rolled_back : bool)
  : option stack_status :=
  match filter (derives rs rolled_back)
          [CREATE_COMPLETE; CREATE_FAILED; STACK_IN_PROGRESS] with
  | [s] => Some s
  | _ => None
  end.

Definition overall_status (st : Stack) : option stack_status :=
  status_of (statuses st) (rollback_succeeded st).

(** Modelled from the spec: [DescribeStackResources(name)], one entry per
    resource with its logical identifier, physical identifier and status. *)
Definition DescribeStackResources (store : Store) (name : string)
  : error + list (string * option string * status) :=
  match lookup name store with
  | Some st =>
      inr (map (fun r => (res_name r, physical_id r, res_status r))
             (stack_resources st))
  | None => inl StackNotFoundError
  end.

(** Modelled from the spec: a backing service of section 6 whose [create]
    always succeeds with a non-empty physical identifier. *)
Definition succeeds (services : string -> option service)
  (resource_type : string) : Prop :=
  exists svc,
    services resource_type = Some svc
    /\ forall props, exists id attrs,
         svc props = inr (id, attrs) /\ id <> EmptyString.

(** Modelled from the spec: the concrete scenario of section 8, a queue
    [Q], a bucket [B] tagged with [Ref Q], a topic [T] and a subscription of
    [Q] to [T]. *)
Definition scenario : Template :=
  {| parameters := [];
     resources :=
       [ {| logical_name := "Q"; resource_type := "queue";
            properties := [("QueueName", Lit "cf-test-queue-1")];
            depends_on := [] |};
         {| logical_name := "B"; resource_type := "bucket";
            properties := [("BucketName", Lit "cf-test-bucket-1");
                           ("Tag.foobar", Ref "Q")];
            depends_on := [] |};
         {| logical_name := "T"; resource_type := "topic";
            properties := [("TopicName", Lit "cf-test-topic-1-1")];
            depends_on := [] |};
         {| logical_name := "Subscription"; resource_type := "subscription";
            properties := [("TopicArn", Ref "T"); ("Endpoint", Ref "Q")];
            depends_on := [] |} ];
     outputs := [] |}.

(** A parser and backing services to run the engine on: a flat JSON object
    is read as a template that declares only parameters, and every service
    names what it creates after its type and its first property. *)
Definition parameters_only (template_body : string) : error + Template :=
  match Json.object_members template_body with
  | Some m => inr {| parameters := m; resources := []; outputs := [] |}
  | None => inl TemplateSyntaxError
  end.

Definition naming_services (resource_type : string) : option service :=
  Some (fun props =>
          inr (resource_type ++ ":" ++
               match props with
               | (_, v) :: _ => v
               | [] => EmptyString
               end, [])).

(** The body of [test_validate_invalid_json_template_should_fail]. *)
Definition invalid_json : string :=
  "{" ++ str1 dquote ++ "this is invalid JSON" ++ str1 dquote ++ "="
  ++ str1 dquote ++ "bobbins" ++ str1 dquote ++ "}".

End Engine.

(** ** The two conversions in sequence *)

(** [requests_to_flask_response(flask_to_requests_response(r))]; [None]
    when one of the two calls does not return. *)
Definition round_trip (r : Flask.FlaskResponse) : option Flask.FlaskResponse :=
  match flask_to_requests_response r with
  | Ok q =>
      match requests_to_flask_response q with
      | Some (Ok r') => Some r'
      | _ => None
      end
  | Raise _ => None
  end.

(** [flask_to_requests_response(requests_to_flask_response(q))]; [None]
    when one of the two calls does not return. *)
Definition back_trip (q : Requests.RequestsResponse)
  : option Requests.RequestsResponse :=
  match requests_to_flask_response q with
  | Some (Ok f) =>
      match flask_to_requests_response f with
      | Ok q' => Some q'
      | Raise _ => None
      end
  | _ => None
  end.

(** ** [tests/integration/test_cloudformation.py]: the helper functions

    The service clients are outside the repository: each helper takes the
    list that its client call answers with, or the call itself when the call
    takes the helper's argument.  A helper that falls off its loop returns
    [None]. *)

Module test_cloudformation.

Record Bucket : Type := mkBucket { Name : string }.

Record Topic : Type := mkTopic { TopicArn : string }.

Record StackDescription : Type := mkStackDescription {
  StackName : string;
  StackStatus : string
}.

Record StackResource : Type := mkStackResource {
  LogicalResourceId : string;
  PhysicalResourceId : string;
  ResourceType : string
}.

(** The truth value of a Python value, as [assert] and [if] take it. *)
Definition truthy (v : pyval) : bool :=
  match v with
  | PyNone => false
  | PyBool b => b
  | PyInt z => negb (z =? 0)
  | PyStr s => negb (String.eqb s EmptyString)
  | PyBytes b => negb (String.eqb b EmptyString)
  | PyList l => match l with [] => false | _ :: _ => true end
  | PyDict d => match d with [] => false | _ :: _ => true end
  end.

(** [sub in s] on strings *)
Fixpoint str_in (sub s : string) : bool :=
  if String.prefix sub s then true
  else match s with
       | EmptyString => false
       | String _ s' => str_in sub s'
       end.

(** [s.endswith(suffix)] *)
Fixpoint endswith (s suffix : string) : bool :=
  if String.eqb s suffix then true
  else match s with
       | EmptyString => false
       | String _ s' => endswith s' suffix
       end.

Fixpoint bucket_exists (list_buckets : list Bucket) (name : string) : pyval :=
  match list_buckets with
  | [] => PyNone
  | bucket :: rest =>
      if String.eqb (Name bucket) name then PyBool true
      else bucket_exists rest name
  end.

Definition queue_exists (list_queues : list string)
  (get_sqs_queue_url : string -> string) (name : string) : pyval :=
  let url := if str_in "://" name then name else get_sqs_queue_url name in
  (fix loop (queue_urls : list string) : pyval :=
     match queue_urls with
     | [] => PyNone
     | queue_url :: rest =>
         if String.eqb queue_url url then PyBool true else loop rest
     end) list_queues.

Fixpoint topic_exists (list_topics : list Topic) (name : string) : pyval :=
  match list_topics with
  | [] => PyNone
  | topic :: rest =>
      let topic_arn := TopicArn topic in
      if endswith topic_arn (":" ++ name) then PyStr topic_arn
      else topic_exists rest name
  end.

Definition queue_url_exists (list_queues : list string) (queue_url : string)
  : bool :=
  existsb (String.eqb queue_url) list_queues.

Definition stream_exists (list_streams : list string) (name : string) : bool :=
  existsb (String.eqb name) list_streams.

Definition get_stack_details
  (describe_stacks : string -> list StackDescription) (stack_name : string)
  : option StackDescription :=
  (fix loop (stacks : list StackDescription) : option StackDescription :=
     match stacks with
     | [] => None
     | stack :: rest =>
         if String.eqb (StackName stack) stack_name then Some stack
         else loop rest
     end) (describe_stacks stack_name).

Definition describe_stack_resource
  (describe_stack_resources : string -> list StackResource)
  (stack_name resource_logical_id : string) : option StackResource :=
  (fix loop (resources : list StackResource) : option StackResource :=
     match resources with
     | [] => None
     | resource :: rest =>
         if String.eqb (LogicalResourceId resource) resource_logical_id
         then Some resource
         else loop rest
     end) (describe_stack_resources stack_name).

Definition list_stack_resources
  (list_stack_resources_call : string -> list StackResource)
  (stack_name : string) : list StackResource :=
  list_stack_resources_call stack_name.

Definition get_queue_urls (list_queues : list string) : list string :=
  list_queues.

Definition get_topic_arns (list_topics : list Topic) : list string :=
  map TopicArn list_topics.

End test_cloudformation.
Example ex_error_default :
  flask_error_response (PyStr "boom") None None =
  Ok {| Flask.data := "{" ++ str1 dquote ++ "Type" ++ str1 dquote ++ ": "
                      ++ str1 dquote ++ "Server" ++ str1 dquote ++ ", "
                      ++ str1 dquote ++ "message" ++ str1 dquote ++ ": "
                      ++ str1 dquote ++ "boom" ++ str1 dquote ++ ", "
                      ++ str1 dquote ++ "__type" ++ str1 dquote ++ ": "
                      ++ str1 dquote ++ "InternalFailure" ++ str1 dquote ++ "}";
        Flask.status_code := 500;
        Flask.headers := [("x-amzn-errortype", "InternalFailure");
                          ("Content-Type", "text/html; charset=utf-8");
                          ("Content-Length", "66")] |}.
Proof. vm_compute. reflexivity. Qed.

(** * Properties *)

(** ** Serialization lemmas *)

Section Serialization.
Import Json.

Lemma app_cons_string (c : ascii) (s t : string) :
  String c s ++ t = String c (s ++ t).
Proof. reflexivity. Qed.

Lemma string_app_assoc (s t u : string) : (s ++ t) ++ u = s ++ (t ++ u).
Proof. induction s as [|c s IH]; cbn; [reflexivity | now rewrite IH]. Qed.

Lemma string_app_length (s t : string) :
  String.length (s ++ t) = (String.length s + String.length t)%nat.
Proof. induction s as [|c s IH]; cbn; [reflexivity | now rewrite IH]. Qed.

Lemma scan_escape_char (c : ascii) (t : string) :
  scan_string (escape_char c ++ t) = cons c (scan_string t).
Proof.
  destruct c as [[] [] [] [] [] [] [] []]; reflexivity.
Qed.

Lemma scan_escape (s rest : string) :
  scan_string (escape s ++ String dquote rest) = Some (s, rest).
Proof.
  induction s as [|c s IH]; [reflexivity|].
  cbn [escape]. rewrite string_app_assoc.
  rewrite scan_escape_char, IH. reflexivity.
Qed.

Lemma utf8_char (c : ascii) (s : string) :
  utf8_decode (utf8_encode (String c s)) =
  option_map (String c) (utf8_decode (utf8_encode s)).
Proof.
  destruct c as [[] [] [] [] [] [] [] []]; reflexivity.
Qed.

Lemma utf8_roundtrip (s : string) : utf8_decode (utf8_encode s) = Some s.
Proof.
  induction s as [|c s IH]; [reflexivity|].
  rewrite utf8_char, IH. reflexivity.
Qed.

Lemma dumps_str_dict (d : list (string * string)) :
  dumps (str_dict d) = Ok ("{" ++ String.concat ", " (map item_text d) ++ "}").
Proof.
  unfold str_dict. cbn [dumps].
  match goal with
  | |- bind ?e _ = _ => assert (H : e = Ok (map item_text d))
  end.
  { induction d as [|[k v] d IH]; [reflexivity|].
    cbn [map str_item fst snd encode_key dumps bind].
    rewrite IH. reflexivity. }
  rewrite H. reflexivity.
Qed.

Lemma item_text_app (k v t : string) :
  item_text (k, v) ++ t =
  String dquote (escape k ++ String dquote (String ":" (String " "
    (String dquote (escape v ++ String dquote t))))).
Proof.
  unfold item_text, encode_basestring_ascii, str1. cbn [fst snd].
  repeat (rewrite ?app_cons_string, ?string_app_assoc; cbn [append]).
  reflexivity.
Qed.

Lemma concat_one (sep x : string) : String.concat sep [x] = x.
Proof. reflexivity. Qed.

Lemma concat_more (sep x y : string) (l : list string) :
  String.concat sep (x :: y :: l) = x ++ sep ++ String.concat sep (y :: l).
Proof. reflexivity. Qed.

Lemma scan_members_text (d : list (string * string)) :
  forall kv fuel rest,
    (List.length d < fuel)%nat ->
    scan_members fuel
      (String.concat ", " (map item_text (kv :: d)) ++ String "}" rest) =
    Some (kv :: d, rest).
Proof.
  induction d as [|kv' d IH]; intros [k v] fuel rest Hfuel;
    (destruct fuel as [|fuel]; [cbn in Hfuel; lia|]).
  - cbn [map]. rewrite concat_one, item_text_app.
    cbn [scan_members]. change (ord dquote =? 34)%N with true. cbn [negb].
    rewrite !scan_escape. reflexivity.
  - change (map item_text ((k, v) :: kv' :: d))
      with (item_text (k, v) :: item_text kv' :: map item_text d).
    rewrite concat_more, string_app_assoc, item_text_app.
    cbn [scan_members]. change (ord dquote =? 34)%N with true. cbn [negb].
    rewrite !scan_escape.
    rewrite string_app_assoc. cbn [append].
    change (item_text kv' :: map item_text d) with (map item_text (kv' :: d)).
    rewrite IH by (cbn in Hfuel; lia). reflexivity.
Qed.

Lemma members_text_length (d : list (string * string)) (t : string) :
  (List.length d <= String.length (String.concat ", " (map item_text d) ++ t))%nat.
Proof.
  induction d as [|[k v] d IH]; [cbn; lia|].
  destruct d as [|kv' d].
  - cbn [map]. rewrite concat_one, item_text_app. cbn. lia.
  - change (map item_text ((k, v) :: kv' :: d))
      with (item_text (k, v) :: map item_text (kv' :: d)) in *.
    cbn [map] in *. rewrite concat_more.
    rewrite !string_app_assoc, item_text_app. cbn [String.length].
    rewrite !string_app_length. cbn [String.length].
    rewrite !string_app_length. cbn [String.length List.length] in *.
    cbn [append String.length]. rewrite !string_app_length.
    rewrite !string_app_length in IH. lia.
Qed.

(** Serializing a dict of strings and reading the text back gives the items
    of the dict, in order. *)
Lemma object_members_dumps (d : list (string * string)) :
  exists text, dumps (str_dict d) = Ok text /\ object_members text = Some d.
Proof.
  eexists. split; [apply dumps_str_dict|].
  destruct d as [|kv d]; [reflexivity|].
  cbn [append]. unfold object_members.
  pose proof (members_text_length (kv :: d) "}") as Hlen.
  pose proof (scan_members_text d kv) as Hscan.
  remember (String.concat ", " (map item_text (kv :: d)) ++ "}") as body eqn:Hb.
  assert (Hq : exists t, body = String dquote t).
  { destruct kv as [k v]. rewrite Hb. destruct d.
    - cbn [map]. rewrite concat_one, item_text_app. eauto.
    - cbn [map]. rewrite concat_more, string_app_assoc, item_text_app. eauto. }
  destruct Hq as [t Ht]. rewrite Ht. cbn [dquote].
  rewrite <- Ht. rewrite Hb.
  rewrite Hscan; [reflexivity|]. rewrite <- Hb. cbn [List.length] in Hlen. lia.
Qed.

End Serialization.

(** ** The Flask constructor *)

Section FlaskResponse.
Import Werkzeug Flask.

Lemma legal_digits (d : Decimal.uint) :
  legal_value (NilEmpty.string_of_uint d) = true.
Proof. induction d; cbn; auto. Qed.

(** A decimal number passes the check of header values. *)
Lemma legal_str_of_nat (n : nat) : legal_value (str_of_nat n) = true.
Proof.
  unfold str_of_nat, NilZero.string_of_uint.
  destruct (Nat.to_uint n) eqn:E; try reflexivity;
    rewrite <- E; apply legal_digits.
Qed.

Lemma extend_legal (d : Dict) :
  forall h : Headers,
    extend h d =
    if legal_headers d then Ok (h ++ d)%list else Raise ValueError.
Proof.
  induction d as [|[k v] d IH]; intros h.
  - cbn. now rewrite app_nil_r.
  - cbn [extend legal_headers forallb snd]. unfold add.
    destruct (legal_value v); cbn [bind andb]; [|reflexivity].
    rewrite IH. fold (legal_headers d).
    destruct (legal_headers d); [|reflexivity].
    now rewrite <- app_assoc.
Qed.

(** [Headers(d)] lists the items of [d], or raises [ValueError] when a value
    holds a line break. *)
Lemma of_dict_legal (d : Dict) :
  of_dict d = if legal_headers d then Ok d else Raise ValueError.
Proof. unfold of_dict. now rewrite extend_legal. Qed.

(** The constructor fails in [Headers(d)] or not at all: the two values it
    writes itself pass the check. *)
Lemma Response_assemble (b : body) (status : Z) (hdrs : header_arg) :
  Response b status hdrs =
  (h0 <- match hdrs with
         | AsHeaders h => Ok h
         | AsDict d => of_dict d
         end ;;
   Ok (assemble b status h0)).
Proof.
  unfold Response, assemble, set_data, setitem.
  destruct (match hdrs with
            | AsHeaders h => Ok h
            | AsDict d => of_dict d
            end) as [h0|e]; cbn [bind]; [|reflexivity].
  change (legal_value default_content_type) with true. cbn iota.
  destruct (contains h0 "content-type"); cbn [bind];
    destruct b; try reflexivity;
    rewrite legal_str_of_nat; reflexivity.
Qed.

Lemma Response_dict (b : body) (status : Z) (d : Dict) :
  Response b status (AsDict d) =
  if legal_headers d then Ok (assemble b status d) else Raise ValueError.
Proof.
  rewrite Response_assemble, of_dict_legal.
  destruct (legal_headers d); reflexivity.
Qed.

Lemma Response_headers (b : body) (status : Z) (h : Headers) :
  Response b status (AsHeaders h) = Ok (assemble b status h).
Proof. now rewrite Response_assemble. Qed.

Lemma assemble_status (b : body) (status : Z) (h : Headers) :
  Flask.status_code (assemble b status h) = status.
Proof. destruct b; reflexivity. Qed.

Lemma assemble_text_data (text : string) (status : Z) (h : Headers) :
  data (assemble (Text text) status h) = utf8_encode text.
Proof. reflexivity. Qed.

Lemma assemble_text_members (text : string) (status : Z) (h : Headers) :
  body_members (assemble (Text text) status h) = Json.object_members text.
Proof.
  unfold body_members. rewrite assemble_text_data, utf8_roundtrip. reflexivity.
Qed.

Lemma assemble_errortype_header (b : body) (status : Z) (e : string) :
  getitem (Flask.headers (assemble b status [("x-amzn-errortype", e)]))
    "x-amzn-errortype" = Some e.
Proof. destruct b; reflexivity. Qed.

End FlaskResponse.

(** ** [flask_error_response] *)

(** With a [str] message the serialization succeeds, and the call returns or
    raises as the constructor does on the one header. *)
Lemma flask_error_response_built
  (msg : string) (code : option Z) (error_type : option string) :
  exists text,
    Json.object_members text =
      Some (envelope msg (kwarg 500 code) (kwarg "InternalFailure" error_type))
    /\ flask_error_response (PyStr msg) code error_type =
       if Werkzeug.legal_value (kwarg "InternalFailure" error_type)
       then Ok (Flask.assemble (Flask.Text text) (kwarg 500 code)
                  [("x-amzn-errortype", kwarg "InternalFailure" error_type)])
       else Raise ValueError.
Proof.
  destruct (object_members_dumps
              (envelope msg (kwarg 500 code) (kwarg "InternalFailure" error_type)))
    as [text [Hd Hm]].
  exists text. split; [exact Hm|].
  unfold flask_error_response.
  change (PyDict _) with
    (Json.str_dict
       (envelope msg (kwarg 500 code) (kwarg "InternalFailure" error_type))).
  rewrite Hd. cbn [bind]. rewrite Response_dict.
  cbn [Werkzeug.legal_headers forallb snd]. now rewrite andb_true_r.
Qed.

(** A response that was built is the assembled one. *)
Lemma flask_error_response_inv
  (msg : string) (code : option Z) (error_type : option string)
  (r : Flask.FlaskResponse) :
  flask_error_response (PyStr msg) code error_type = Ok r ->
  exists text,
    Json.object_members text =
      Some (envelope msg (kwarg 500 code) (kwarg "InternalFailure" error_type))
    /\ r = Flask.assemble (Flask.Text text) (kwarg 500 code)
             [("x-amzn-errortype", kwarg "InternalFailure" error_type)].
Proof.
  intros H.
  destruct (flask_error_response_built msg code error_type) as [text [Hm Hr]].
  rewrite Hr in H.
  destruct (Werkzeug.legal_value (kwarg "InternalFailure" error_type));
    [|discriminate].
  injection H as <-. eauto.
Qed.

Lemma envelope_field_Type (msg : string) (code : Z) (error_type : string) :
  option_map snd
    (find (fun kv => String.eqb (fst kv) "Type") (envelope msg code error_type))
  = Some (if code <? 500 then "User" else "Server").
Proof. reflexivity. Qed.

Lemma envelope_field_type (msg : string) (code : Z) (error_type : string) :
  option_map snd
    (find (fun kv => String.eqb (fst kv) "__type") (envelope msg code error_type))
  = Some error_type.
Proof. reflexivity. Qed.

(** C1, as the code has it: in every response that [flask_error_response]
    builds, the [Type] field of the body is ["User"] exactly when the status
    code is below 500, which covers every 4xx code, and ["Server"] exactly
    when it is 500 or more. *)
Theorem flask_error_response_Type
  (msg : string) (code : Z) (error_type : string)
  (r : Flask.FlaskResponse) :
  flask_error_response (PyStr msg) (Some code) (Some error_type) = Ok r ->
  body_field r "Type" = Some (if code <? 500 then "User" else "Server")
  /\ (body_field r "Type" = Some "User" <-> code < 500)
  /\ (body_field r "Type" = Some "Server" <-> 500 <= code).
Proof.
  intros H.
  destruct (flask_error_response_inv msg (Some code) (Some error_type) r H)
    as [text [Hm ->]].
  unfold body_field. rewrite assemble_text_members, Hm.
  cbn [kwarg]. rewrite envelope_field_Type.
  destruct (Z.ltb_spec code 500) as [Hlt|Hge].
  - repeat split; intros; try reflexivity; try lia; discriminate.
  - repeat split; intros; try reflexivity; try lia; discriminate.
Qed.

(** C1 at a response of status 404 and at one of status 503. *)
Lemma flask_error_response_Type_witness :
  (exists r,
      flask_error_response (PyStr "no such stack") (Some 404)
        (Some "ResourceNotFound") = Ok r
      /\ body_field r "Type" = Some "User")
  /\ (exists r,
      flask_error_response (PyStr "try later") (Some 503)
        (Some "ServiceUnavailable") = Ok r
      /\ body_field r "Type" = Some "Server").
Proof.
  split; (eexists; split; [reflexivity|]).
  - exact (proj1 (flask_error_response_Type "no such stack" 404
                    "ResourceNotFound" _ eq_refl)).
  - exact (proj1 (flask_error_response_Type "try later" 503
                    "ServiceUnavailable" _ eq_refl)).
Defined.

(** C1, the claim as stated fails: status 200 is outside the 4xx range and
    the [Type] field is ["User"], not ["Server"]. *)
Lemma flask_error_response_Type_200 :
  exists r,
    flask_error_response (PyStr "moved") (Some 200) (Some "Redirect") = Ok r
    /\ (400 <=? 200) && (200 <? 500) = false
    /\ body_field r "Type" = Some "User"
    /\ body_field r "Type" <> Some "Server".
Proof.
  eexists. split; [reflexivity|].
  split; [reflexivity|]. split; [reflexivity|]. discriminate.
Qed.

(** C2, as the code has it: for every message string, status code and
    error-type string without a line feed or carriage return the function
    returns a response whose body is a JSON object with exactly the members
    [Type], [message] and [__type], in which [message] is the given message
    and [__type] the given error type, and whose status is the given code. *)
Theorem flask_error_response_envelope
  (msg : string) (code : Z) (error_type : string) :
  Werkzeug.legal_value error_type = true ->
  exists r ty,
    flask_error_response (PyStr msg) (Some code) (Some error_type) = Ok r
    /\ body_members r =
       Some [("Type", ty); ("message", msg); ("__type", error_type)]
    /\ Flask.status_code r = code.
Proof.
  intros Hlegal.
  destruct (flask_error_response_built msg (Some code) (Some error_type))
    as [text [Hm Hr]].
  cbn [kwarg] in Hr. rewrite Hlegal in Hr.
  eexists. eexists. split; [exact Hr|]. split.
  - rewrite assemble_text_members, Hm. reflexivity.
  - apply assemble_status.
Qed.

(** C2 at the validation error of status 400. *)
Lemma flask_error_response_envelope_witness :
  exists r ty,
    flask_error_response (PyStr "Template Validation Error") (Some 400)
      (Some "ValidationError") = Ok r
    /\ body_members r =
       Some [("Type", ty); ("message", "Template Validation Error");
             ("__type", "ValidationError")]
    /\ Flask.status_code r = 400.
Proof.
  apply (flask_error_response_envelope "Template Validation Error" 400
           "ValidationError").
  reflexivity.
Defined.

(** C2, the claim as stated fails: with a line feed in the error type the
    message is serialized, the header value is refused and the call raises
    [ValueError] instead of returning a response. *)
Lemma flask_error_response_line_break :
  flask_error_response (PyStr "boom") (Some 400)
    (Some (String "a" (String LF (String "b" EmptyString))))
  = Raise ValueError.
Proof. reflexivity. Qed.

(** C3: every response that [flask_error_response] builds carries a header
    [x-amzn-errortype] whose value is the [__type] member of the body; both
    are the [error_type] argument. *)
Theorem flask_error_response_errortype
  (msg : string) (code : Z) (error_type : string)
  (r : Flask.FlaskResponse) :
  flask_error_response (PyStr msg) (Some code) (Some error_type) = Ok r ->
  Werkzeug.getitem (Flask.headers r) "x-amzn-errortype" = Some error_type
  /\ body_field r "__type" = Some error_type
  /\ Werkzeug.getitem (Flask.headers r) "x-amzn-errortype"
     = body_field r "__type".
Proof.
  intros H.
  destruct (flask_error_response_inv msg (Some code) (Some error_type) r H)
    as [text [Hm ->]].
  cbn [kwarg] in *.
  assert (Hb : body_field
                 (Flask.assemble (Flask.Text text) code
                    [("x-amzn-errortype", error_type)])
                 "__type" = Some error_type).
  { unfold body_field. rewrite assemble_text_members, Hm.
    apply envelope_field_type. }
  rewrite Hb, assemble_errortype_header. auto.
Qed.

(** C3 at a response of status 404. *)
Lemma flask_error_response_errortype_witness :
  exists r,
    flask_error_response (PyStr "no such stack") (Some 404)
      (Some "ResourceNotFound") = Ok r
    /\ Werkzeug.getitem (Flask.headers r) "x-amzn-errortype"
       = Some "ResourceNotFound"
    /\ body_field r "__type" = Some "ResourceNotFound"
    /\ Werkzeug.getitem (Flask.headers r) "x-amzn-errortype"
       = body_field r "__type".
Proof.
  eexists. split; [reflexivity|].
  apply (flask_error_response_errortype "no such stack" 404 "ResourceNotFound").
  reflexivity.
Defined.

(** C10: with only a message given, the status is 500, the [Type] member is
    ["Server"], and the [__type] member and the [x-amzn-errortype] header
    are ["InternalFailure"]. *)
Theorem flask_error_response_defaults (msg : string) :
  exists r,
    flask_error_response (PyStr msg) None None = Ok r
    /\ Flask.status_code r = 500
    /\ body_field r "Type" = Some "Server"
    /\ body_field r "__type" = Some "InternalFailure"
    /\ Werkzeug.getitem (Flask.headers r) "x-amzn-errortype"
       = Some "InternalFailure".
Proof.
  destruct (flask_error_response_built msg None None) as [text [Hm Hr]].
  change (Werkzeug.legal_value (kwarg "InternalFailure" None)) with true in Hr.
  eexists. split; [exact Hr|].
  split; [apply assemble_status|].
  unfold body_field. rewrite assemble_text_members, Hm.
  split; [reflexivity|]. split; [reflexivity|].
  apply assemble_errortype_header.
Qed.

(** ** [requests_response] *)

(** C8, as the code has it: for a dict that [json.dumps] serializes the
    call returns a response whose [_content] is the JSON text; for a content
    that is not a dict it returns a response whose [_content] is the content
    itself; for a dict that [json.dumps] rejects it raises the same error.
    The [content] property reads what [_content] holds, except that [False]
    reads as [None].  The status code is the one given, and 200 when none is
    given. *)
Theorem requests_response_body
  (content : pyval) (status_code : option Z)
  (headers : option Werkzeug.header_arg) :
  (forall text,
      isinstance_dict content = true -> Json.dumps content = Ok text ->
      exists r, requests_response content status_code headers = Ok r
                /\ Requests._content r = PyStr text
                /\ Requests.content r = PyStr text
                /\ Requests.status_code r
                   = match status_code with Some c => c | None => 200 end)
  /\ (isinstance_dict content = false ->
      exists r, requests_response content status_code headers = Ok r
                /\ Requests._content r = content
                /\ Requests.content r
                   = match content with
                     | PyBool false => PyNone
                     | _ => content
                     end
                /\ Requests.status_code r
                   = match status_code with Some c => c | None => 200 end)
  /\ (forall e,
      isinstance_dict content = true -> Json.dumps content = Raise e ->
      requests_response content status_code headers = Raise e).
Proof.
  unfold requests_response. repeat split.
  - intros text Hd Ht. rewrite Hd, Ht. cbn [bind].
    eexists. split; [reflexivity|]. split; [reflexivity|].
    split; [reflexivity|]. destruct status_code; reflexivity.
  - intros Hd. rewrite Hd. cbn [bind].
    eexists. split; [reflexivity|]. split; [reflexivity|].
    split; [|destruct status_code; reflexivity].
    unfold Requests.content. cbn [Requests._content].
    destruct content as [|[|]| | | | |]; reflexivity.
  - intros e Hd He. rewrite Hd, He. reflexivity.
Qed.

(** C8, the claim as stated fails: a dict with a [bytes] value has no JSON
    serialization and the call raises [TypeError] instead of returning a
    response; and for the content [False] the body read through the
    [content] property is [None], not the content. *)
Lemma requests_response_unserializable :
  requests_response (PyDict [(PyStr "a", PyBytes "x")]) None None
  = Raise TypeError
  /\ exists r,
       requests_response (PyBool false) None None = Ok r
       /\ Requests._content r = PyBool false
       /\ Requests.content r = PyNone.
Proof.
  split; [reflexivity|].
  eexists. split; [reflexivity|]. split; reflexivity.
Qed.

(** C8 at concrete contents: a dict is serialized, a string is kept, and the
    status is 200 by default. *)
Lemma requests_response_body_witness :
  (exists r,
      requests_response (PyDict [(PyStr "a", PyInt 1)]) None None = Ok r
      /\ Requests._content r
         = PyStr ("{" ++ str1 dquote ++ "a" ++ str1 dquote ++ ": 1}")
      /\ Requests.content r
         = PyStr ("{" ++ str1 dquote ++ "a" ++ str1 dquote ++ ": 1}")
      /\ Requests.status_code r = 200)
  /\ (exists r,
      requests_response (PyStr "plain") None None = Ok r
      /\ Requests._content r = PyStr "plain"
      /\ Requests.content r = PyStr "plain"
      /\ Requests.status_code r = 200).
Proof.
  split.
  - apply (proj1 (requests_response_body
                    (PyDict [(PyStr "a", PyInt 1)]) None None));
      reflexivity.
  - apply (proj1 (proj2 (requests_response_body (PyStr "plain") None None)));
      reflexivity.
Defined.

(** ** Headers through a dict and back *)

Section HeadersDict.
Import Werkzeug.
Local Open Scope list_scope.


Lemma same_name_true (a b : string) : same_name a b = true <-> lower a = lower b.
Proof. unfold same_name. apply String.eqb_eq. Qed.

Lemma same_name_false (a b : string) :
  same_name a b = false <-> lower a <> lower b.
Proof. unfold same_name. apply String.eqb_neq. Qed.

Lemma getitem_own (pre suf : Headers) (k v : string) :
  NoDup (names (pre ++ (k, v) :: suf)) ->
  getitem (pre ++ (k, v) :: suf) k = Some v.
Proof.
  induction pre as [|[k' v'] pre IH]; intros Hnd.
  - cbn. unfold same_name. now rewrite String.eqb_refl.
  - cbn in Hnd |- *. inversion Hnd as [|x l Hnotin Hnd']; subst.
    destruct (same_name k' k) eqn:E.
    + apply same_name_true in E. exfalso. apply Hnotin.
      rewrite E. unfold names. rewrite map_app. apply in_or_app. right.
      now left.
    + now apply IH.
Qed.

Lemma dict_setitem_fresh (d : Dict) (k v : string) :
  ~ In k (map fst d) -> dict_setitem d k v = (d ++ [(k, v)])%list.
Proof.
  induction d as [|[k' v'] d IH]; intros Hn; [reflexivity|].
  cbn in Hn |- *. destruct (String.eqb_spec k' k) as [->|Hne].
  - tauto.
  - rewrite IH by tauto. reflexivity.
Qed.

Lemma names_fresh_key (pre : Headers) (k : string) :
  ~ In (lower k) (names pre) -> ~ In k (map fst pre).
Proof.
  intros Hn Hin. apply Hn. unfold names.
  apply in_map_iff in Hin. destruct Hin as [[k' v'] [Hk Hin]].
  cbn in Hk. subst k'. apply in_map_iff. exists (k, v'). auto.
Qed.

Lemma dict_fold_distinct (h : Headers) :
  forall pre suf : Headers,
    h = (pre ++ suf)%list -> NoDup (names h) ->
    fold_left
      (fun d kv =>
         match getitem h (fst kv) with
         | Some v => dict_setitem d (fst kv) v
         | None => d
         end) suf pre = h.
Proof.
  intros pre suf. revert pre.
  induction suf as [|[k v] suf IH]; intros pre Hh Hnd.
  - cbn. now rewrite app_nil_r in Hh.
  - cbn [fold_left fst].
    assert (Hget : getitem h k = Some v) by (subst h; now apply getitem_own).
    rewrite Hget.
    assert (Hfresh : ~ In (lower k) (names pre)).
    { subst h. unfold names in Hnd. rewrite map_app in Hnd. cbn in Hnd.
      apply NoDup_remove_2 in Hnd. intros Hin. apply Hnd.
      apply in_or_app. now left. }
    rewrite dict_setitem_fresh by now apply names_fresh_key.
    apply IH; [|exact Hnd]. rewrite <- app_assoc. exact Hh.
Qed.

(** [dict(headers)] keeps every pair when no name repeats. *)
Lemma dict_of_headers_distinct (h : Headers) :
  NoDup (names h) -> dict_of_headers h = h.
Proof. intros Hnd. unfold dict_of_headers. now apply dict_fold_distinct. Qed.

Lemma filter_other_names (h : Headers) (key : string) :
  ~ In (lower key) (names h) ->
  filter (fun kv => negb (same_name (fst kv) key)) h = h.
Proof.
  unfold names.
  induction h as [|[k v] h IH]; intros Hn; [reflexivity|].
  cbn [map fst In] in Hn. cbn [filter fst].
  destruct (same_name k key) eqn:E.
  - apply same_name_true in E. tauto.
  - cbn [negb]. rewrite IH by tauto. reflexivity.
Qed.

(** Setting a header to the value it already has, under the same spelling
    of its name, changes nothing when no name repeats. *)
Lemma set_present (h : Headers) (key value : string) :
  NoDup (names h) -> In (key, value) h -> set h key value = h.
Proof.
  induction h as [|[k v] h IH]; intros Hnd Hin; [destruct Hin|].
  cbn in Hnd. inversion Hnd as [|x l Hnotin Hnd']; subst.
  cbn [set]. destruct Hin as [Heq|Hin].
  - inversion Heq; subst. unfold same_name at 1. rewrite String.eqb_refl.
    cbn [fst]. now rewrite filter_other_names.
  - destruct (same_name k key) eqn:E.
    + apply same_name_true in E. exfalso. apply Hnotin. cbn [fst]. rewrite E.
      unfold names. apply in_map_iff. exists (key, value). auto.
    + rewrite IH by assumption. reflexivity.
Qed.

Lemma In_set (h : Headers) (key value : string) :
  In (key, value) (set h key value).
Proof.
  induction h as [|[k v] h IH]; [now left|].
  cbn [set]. destruct (same_name k key); [now left | now right].
Qed.

(** A name that is present stays present when a header is set, and the
    name that is set is present. *)
Lemma contains_set (h : Headers) (key value name : string) :
  contains h name = true \/ same_name key name = true ->
  contains (set h key value) name = true.
Proof.
  unfold contains.
  induction h as [|[k v] h IH]; intros H.
  - cbn [set existsb fst] in *. destruct H as [H|H]; [discriminate | now rewrite H].
  - cbn [set]. destruct (same_name k key) eqn:Ek.
    + cbn [existsb fst]. destruct (same_name key name) eqn:En; [reflexivity|].
      destruct H as [H|H]; [|discriminate].
      cbn [existsb fst] in H. apply same_name_true in Ek.
      apply same_name_false in En.
      apply orb_true_iff in H. destruct H as [H|H].
      * apply same_name_true in H. congruence.
      * cbn [orb]. apply existsb_exists in H. destruct H as [x [Hin Hx]].
        apply existsb_exists. exists x. split; [|exact Hx].
        apply filter_In. split; [exact Hin|].
        apply negb_true_iff, same_name_false.
        apply same_name_true in Hx. congruence.
    + cbn [existsb fst] in H |- *.
      destruct (same_name k name); [reflexivity|]. cbn [orb] in H |- *.
      apply IH. exact H.
Qed.

End HeadersDict.

(** ** From Flask to [requests] and back *)


Lemma distinct_NoDup (l : list string) :
  Werkzeug.distinct l = true -> NoDup l.
Proof.
  induction l as [|x l IH]; intros H; [constructor|].
  cbn in H. apply andb_true_iff in H. destruct H as [Hx Hl].
  constructor; [|now apply IH].
  intros Hin. apply negb_true_iff in Hx.
  assert (existsb (String.eqb x) l = true); [|congruence].
  apply existsb_exists. exists x. split; [exact Hin|apply String.eqb_refl].
Qed.

Lemma assemble_content_headers
  (b : Flask.body) (status : Z) (h : Werkzeug.Headers) :
  b <> Flask.NoBody ->
  Werkzeug.contains (Flask.headers (Flask.assemble b status h)) "content-type"
  = true
  /\ In ("Content-Length",
         str_of_nat (String.length (Flask.data (Flask.assemble b status h))))
       (Flask.headers (Flask.assemble b status h)).
Proof.
  intros Hb. unfold Flask.assemble.
  assert (Hct : Werkzeug.contains
                  (if Werkzeug.contains h "content-type" then h
                   else Werkzeug.set h "Content-Type"
                          Flask.default_content_type)
                  "content-type" = true).
  { destruct (Werkzeug.contains h "content-type") eqn:E; [exact E|].
    apply contains_set. now right. }
  destruct b as [|s|s]; [congruence| |];
    (split; [apply contains_set; now left | apply In_set]).
Qed.

(** Every response that the constructor builds from a [str] or [bytes] body
    carries a [Content-Type] header and the [Content-Length] of its body. *)
Lemma Response_content_headers
  (b : Flask.body) (status : Z) (h : Werkzeug.header_arg)
  (r : Flask.FlaskResponse) :
  b <> Flask.NoBody ->
  Flask.Response b status h = Ok r ->
  Werkzeug.contains (Flask.headers r) "content-type" = true
  /\ In ("Content-Length", str_of_nat (String.length (Flask.data r)))
       (Flask.headers r).
Proof.
  intros Hb H. rewrite Response_assemble in H.
  destruct (match h with
            | Werkzeug.AsDict d => Werkzeug.of_dict d
            | Werkzeug.AsHeaders h' => Ok h'
            end) as [h0|e]; cbn [bind] in H; [|discriminate].
  injection H as <-. now apply assemble_content_headers.
Qed.

(** The two example responses are what the constructor builds. *)
Example two_cookies_built :
  Flask.Response (Flask.Text "ok") 200
    (Werkzeug.AsHeaders [("Set-Cookie", "a=1"); ("Set-Cookie", "b=2")])
  = Ok two_cookies.
Proof. reflexivity. Qed.

Example not_found_built :
  Flask.Response (Flask.Text "gone") 404
    (Werkzeug.AsDict [("x-amzn-errortype", "NotFound")])
  = Ok not_found.
Proof. reflexivity. Qed.

(** Without its [Content-Length] header a response does not come back as it
    was: the constructor writes the header again. *)
Example round_trip_writes_content_length :
  requests_to_flask_response
    {| Requests._content := PyBytes "ok";
       Requests.status_code := 200;
       Requests.headers :=
         Werkzeug.AsHeaders [("Content-Type", "text/plain")] |}
  = Some (Ok {| Flask.data := "ok";
                Flask.status_code := 200;
                Flask.headers := [("Content-Type", "text/plain");
                                  ("Content-Length", "2")] |}).
Proof. reflexivity. Qed.

(** A header value with a line break, which a [Headers] object built from a
    raw list can hold, is refused on the way back. *)
Example round_trip_line_break :
  requests_to_flask_response
    {| Requests._content := PyBytes "ok";
       Requests.status_code := 200;
       Requests.headers :=
         Werkzeug.AsHeaders
           [("X-Note", String "a" (String LF (String "b" EmptyString)))] |}
  = Some (Raise ValueError).
Proof. reflexivity. Qed.

(** C9, as the code has it: when no header name of [r] repeats, no header
    value holds a line break, and [r] carries a [Content-Type] header and
    the [Content-Length] header of its body, as the constructor writes them,
    converting [r] to a [requests] response and back gives [r] again: the
    same body, status code and header pairs. *)
Theorem flask_requests_round_trip (r : Flask.FlaskResponse) :
  Werkzeug.distinct_names (Flask.headers r) = true ->
  Werkzeug.legal_headers (Flask.headers r) = true ->
  Werkzeug.contains (Flask.headers r) "content-type" = true ->
  In ("Content-Length", str_of_nat (String.length (Flask.data r)))
    (Flask.headers r) ->
  exists q,
    flask_to_requests_response r = Ok q
    /\ requests_to_flask_response q = Some (Ok r).
Proof.
  intros Hd Hlegal Hct Hcl. apply distinct_NoDup in Hd.
  exists {| Requests._content := PyBytes (Flask.data r);
            Requests.status_code := Flask.status_code r;
            Requests.headers := Werkzeug.AsHeaders (Flask.headers r) |}.
  split; [reflexivity|].
  unfold requests_to_flask_response.
  cbn [Requests.content Requests._content Requests.status_code
       Requests.headers Flask.as_body Werkzeug.to_dict].
  rewrite dict_of_headers_distinct by exact Hd.
  rewrite Response_dict, Hlegal.
  unfold Flask.assemble. rewrite Hct.
  rewrite set_present by assumption.
  destruct r; reflexivity.
Qed.

(** C9 at the error response of status 404. *)
Lemma flask_requests_round_trip_witness :
  exists q,
    flask_to_requests_response not_found = Ok q
    /\ requests_to_flask_response q = Some (Ok not_found).
Proof.
  apply (flask_requests_round_trip not_found).
  - reflexivity.
  - reflexivity.
  - reflexivity.
  - vm_compute. right. right. left. reflexivity.
Defined.

(** C9, the claim as stated fails: of two headers with the same name only
    one comes back. *)
Lemma flask_requests_round_trip_two_cookies :
  exists q r',
    flask_to_requests_response two_cookies = Ok q
    /\ requests_to_flask_response q = Some (Ok r')
    /\ Flask.headers two_cookies
       = [("Set-Cookie", "a=1"); ("Set-Cookie", "b=2");
          ("Content-Type", "text/html; charset=utf-8");
          ("Content-Length", "2")]
    /\ Flask.headers r'
       = [("Set-Cookie", "a=1");
          ("Content-Type", "text/html; charset=utf-8");
          ("Content-Length", "2")]
    /\ Flask.headers r' <> Flask.headers two_cookies.
Proof.
  eexists. eexists. split; [reflexivity|]. split; [reflexivity|].
  split; [reflexivity|]. split; [reflexivity|].
  vm_compute. discriminate.
Qed.

(** ** The template deployment engine *)

Section EngineProperties.
Import Engine.

Variable parse : string -> error + Template.

Lemma validate_syntax_error (template_body : string) :
  parse template_body = inl TemplateSyntaxError ->
  validate parse template_body = inl TemplateSyntaxError.
Proof. intros H. unfold validate. now rewrite H. Qed.

End EngineProperties.

(** C4: for a template body that the parser rejects, [ValidateTemplate]
    fails with the syntax error, whose envelope has status 400, [Type]
    ["User"] and message ["Template Validation Error"]; the store of stacks
    is unchanged, so no stack is created. *)
Theorem ValidateTemplate_unparsable
  (parse : string -> Engine.error + Engine.Template)
  (capabilities : Engine.Template -> list string)
  (store : Engine.Store) (template_body : string) :
  parse template_body = inl Engine.TemplateSyntaxError ->
  Engine.ValidateTemplate parse capabilities store template_body
  = (inl Engine.TemplateSyntaxError, store)
  /\ exists r,
       Engine.validation_error_response Engine.TemplateSyntaxError = Ok r
       /\ Flask.status_code r = 400
       /\ body_field r "Type" = Some "User"
       /\ body_field r "message" = Some "Template Validation Error".
Proof.
  intros Hparse. split.
  - unfold Engine.ValidateTemplate.
    now rewrite (validate_syntax_error parse template_body Hparse).
  - unfold Engine.validation_error_response. cbn [Engine.message].
    destruct (flask_error_response_built "Template Validation Error"
                (Some 400) (Some "ValidationError")) as [text [Hm Hr]].
    change (Werkzeug.legal_value (kwarg "InternalFailure"
                                    (Some "ValidationError")))
      with true in Hr.
    eexists. split; [exact Hr|]. split; [apply assemble_status|].
    unfold body_field. rewrite assemble_text_members, Hm.
    split; reflexivity.
Qed.

(** C4 at the invalid body of the integration test. *)
Lemma ValidateTemplate_unparsable_witness :
  Engine.ValidateTemplate Engine.parameters_only (fun _ => []) []
    Engine.invalid_json
  = (inl Engine.TemplateSyntaxError, [])
  /\ exists r,
       Engine.validation_error_response Engine.TemplateSyntaxError = Ok r
       /\ Flask.status_code r = 400
       /\ body_field r "Type" = Some "User"
       /\ body_field r "message" = Some "Template Validation Error".
Proof.
  apply (ValidateTemplate_unparsable Engine.parameters_only (fun _ => []) []
           Engine.invalid_json).
  reflexivity.
Defined.

Section Scenario.
Import Engine.

Variable services : string -> option service.
Hypothesis queue_service : succeeds services "queue".
Hypothesis bucket_service : succeeds services "bucket".
Hypothesis topic_service : succeeds services "topic".
Hypothesis subscription_service : succeeds services "subscription".

Lemma build_scenario : build scenario = inr (resources scenario).
Proof. reflexivity. Qed.

Lemma create_succeeds (ty : string) (props : list (string * string)) :
  succeeds services ty ->
  exists id attrs, create services ty props = inr (id, attrs)
                   /\ id <> EmptyString.
Proof.
  intros [svc [Hs Hsvc]]. destruct (Hsvc props) as [id [attrs [Hc Hid]]].
  exists id, attrs. unfold create. now rewrite Hs, Hc.
Qed.

Lemma provision_created (st : Stack) (r : ResourceSpec)
  (props : list (string * string)) (id : string)
  (attrs : list (string * string)) :
  forallb (dependency_complete st) (edges (stack_template st) r) = true ->
  resolve_properties (parameter_values st) (stack_resources st) (properties r)
  = inr props ->
  create services (resource_type r) props = inr (id, attrs) ->
  provision services st r =
  transition
    (transition st
       {| res_name := logical_name r; res_type := resource_type r;
          resolved_properties := props; physical_id := None;
          attributes := []; res_status := IN_PROGRESS;
          last_error := None |})
    {| res_name := logical_name r; res_type := resource_type r;
       resolved_properties := props; physical_id := Some id;
       attributes := attrs; res_status := COMPLETE CREATE;
       last_error := None |}.
Proof.
  intros Hdeps Hprops Hcreate. unfold provision.
  now rewrite Hdeps, Hprops, Hcreate.
Qed.

Lemma deploy_scenario (name : string) :
  exists st url,
    fold_left (provision services) (resources scenario)
      (new_stack name scenario []) = st
    /\ overall_status st = Some CREATE_COMPLETE
    /\ option_map physical_id (find_resource "Q" (stack_resources st))
       = Some (Some url)
    /\ option_map (fun r => lookup "Tag.foobar" (resolved_properties r))
         (find_resource "B" (stack_resources st))
       = Some (Some url)
    /\ map res_name (stack_resources st) = ["Q"; "B"; "T"; "Subscription"]
    /\ Forall (fun r => exists id,
                   physical_id r = Some id /\ id <> EmptyString
                   /\ res_status r = COMPLETE CREATE)
         (stack_resources st).
Proof.
  destruct (create_succeeds "queue" [("QueueName", "cf-test-queue-1")]
              queue_service) as (qid & qa & Hq & Hqne).
  destruct (create_succeeds "bucket"
              [("BucketName", "cf-test-bucket-1"); ("Tag.foobar", qid)]
              bucket_service) as (bid & ba & Hb & Hbne).
  destruct (create_succeeds "topic" [("TopicName", "cf-test-topic-1-1")]
              topic_service) as (tid & ta & Ht & Htne).
  destruct (create_succeeds "subscription"
              [("TopicArn", tid); ("Endpoint", qid)]
              subscription_service) as (sid & sa & Hs & Hsne).
  eexists. exists qid. split.
  - cbn [resources scenario fold_left].
    erewrite (provision_created (new_stack name _ []));
      [|reflexivity|reflexivity|exact Hq].
    erewrite (provision_created (transition _ _));
      [|reflexivity|reflexivity|exact Hb].
    erewrite (provision_created (transition _ _));
      [|reflexivity|reflexivity|exact Ht].
    erewrite (provision_created (transition _ _));
      [|reflexivity|reflexivity|exact Hs].
    reflexivity.
  - split; [reflexivity|]. split; [reflexivity|]. split; [reflexivity|].
    split; [reflexivity|].
    cbv [stack_resources transition update_resource new_stack map pending
         resources scenario res_name logical_name String.eqb Ascii.eqb
         Bool.eqb].
    repeat (constructor;
            [eexists; split; [reflexivity|]; split; [assumption|reflexivity]|]).
    constructor.
Qed.


End Scenario.

(** C5: applying the template of the scenario, with backing services whose
    [create] succeeds with a non-empty identifier, creates the stack with
    final status [CREATE_COMPLETE]; the tag of the bucket is the physical
    identifier that [Ref Q] resolves to, the queue URL; and
    [DescribeStackResources] lists the four resources, each with a non-empty
    physical identifier. *)
Theorem apply_scenario
  (services : string -> option Engine.service)
  (parse : string -> Engine.error + Engine.Template)
  (name template_body : string) :
  parse template_body = inr Engine.scenario ->
  Engine.succeeds services "queue" ->
  Engine.succeeds services "bucket" ->
  Engine.succeeds services "topic" ->
  Engine.succeeds services "subscription" ->
  exists st url entries,
    Engine.CreateStack services parse [] name template_body []
    = (inr name, [(name, st)])
    /\ Engine.overall_status st = Some Engine.CREATE_COMPLETE
    /\ option_map Engine.physical_id
         (Engine.find_resource "Q" (Engine.stack_resources st))
       = Some (Some url)
    /\ option_map
         (fun r => Engine.lookup "Tag.foobar" (Engine.resolved_properties r))
         (Engine.find_resource "B" (Engine.stack_resources st))
       = Some (Some url)
    /\ Engine.DescribeStackResources [(name, st)] name = inr entries
    /\ map (fun e => fst (fst e)) entries = ["Q"; "B"; "T"; "Subscription"]
    /\ Forall (fun e => exists id,
                   snd (fst e) = Some id /\ id <> EmptyString
                   /\ snd e = Engine.COMPLETE Engine.CREATE) entries.
Proof.
  intros Hparse Hq Hb Ht Hs.
  destruct (deploy_scenario services Hq Hb Ht Hs name)
    as (st & url & Hst & Hstatus & Hurl & Htag & Hnames & Hids).
  exists st, url. eexists. split.
  - unfold Engine.CreateStack, Engine.validate. cbn [Engine.lookup find option_map].
    rewrite Hparse, build_scenario. now rewrite Hst.
  - split; [exact Hstatus|]. split; [exact Hurl|]. split; [exact Htag|].
    unfold Engine.DescribeStackResources, Engine.lookup.
    cbn [find fst]. rewrite String.eqb_refl. cbn [option_map snd].
    split; [reflexivity|]. split.
    + rewrite map_map. exact Hnames.
    + apply Forall_map. cbn [fst snd]. exact Hids.
Qed.

Lemma naming_services_succeed (resource_type : string) :
  Engine.succeeds Engine.naming_services resource_type.
Proof.
  eexists. split; [reflexivity|]. intros props.
  eexists. eexists. split; [reflexivity|].
  destruct resource_type; cbn; discriminate.
Qed.

(** C5 with services that name what they create. *)
Lemma apply_scenario_witness :
  exists st url entries,
    Engine.CreateStack Engine.naming_services (fun _ => inr Engine.scenario)
      [] "test-cf-stack-1" "template1" []
    = (inr "test-cf-stack-1", [("test-cf-stack-1", st)])
    /\ Engine.overall_status st = Some Engine.CREATE_COMPLETE
    /\ option_map Engine.physical_id
         (Engine.find_resource "Q" (Engine.stack_resources st))
       = Some (Some url)
    /\ option_map
         (fun r => Engine.lookup "Tag.foobar" (Engine.resolved_properties r))
         (Engine.find_resource "B" (Engine.stack_resources st))
       = Some (Some url)
    /\ Engine.DescribeStackResources [("test-cf-stack-1", st)]
         "test-cf-stack-1" = inr entries
    /\ map (fun e => fst (fst e)) entries = ["Q"; "B"; "T"; "Subscription"]
    /\ Forall (fun e => exists id,
                   snd (fst e) = Some id /\ id <> EmptyString
                   /\ snd e = Engine.COMPLETE Engine.CREATE) entries.
Proof.
  apply (apply_scenario Engine.naming_services (fun _ => inr Engine.scenario)
           "test-cf-stack-1" "template1").
  - reflexivity.
  - apply naming_services_succeed.
  - apply naming_services_succeed.
  - apply naming_services_succeed.
  - apply naming_services_succeed.
Defined.

Example scenario_tag :
  option_map
    (fun st =>
       option_map
         (fun r => Engine.lookup "Tag.foobar" (Engine.resolved_properties r))
         (Engine.find_resource "B" (Engine.stack_resources st)))
    (Engine.lookup "s"
       (snd (Engine.CreateStack Engine.naming_services
               (fun _ => inr Engine.scenario) [] "s" "template1" [])))
  = Some (Some (Some "queue:cf-test-queue-1")).
Proof. reflexivity. Qed.

(** * Further properties of [aws_responses.py] *)

(** ** Errors of [flask_error_response] *)

(** X1: [flask_error_response] returns a response exactly when [json.dumps]
    can serialize the message and the error type holds no line break.  When
    the message cannot be serialized the call raises the error of
    [json.dumps]; otherwise, when the error type holds a line feed or a
    carriage return, it raises [ValueError]. *)
Theorem flask_error_response_serializable
  (msg : pyval) (code : option Z) (error_type : option string) :
  match Json.dumps msg with
  | Raise e => flask_error_response msg code error_type = Raise e
  | Ok _ =>
      if Werkzeug.legal_value (kwarg "InternalFailure" error_type)
      then exists r, flask_error_response msg code error_type = Ok r
                     /\ Flask.status_code r = kwarg 500 code
      else flask_error_response msg code error_type = Raise ValueError
  end.
Proof.
  unfold flask_error_response.
  cbn [Json.dumps Json.encode_key bind].
  destruct (Json.dumps msg) as [text|e]; cbn [bind]; [|reflexivity].
  rewrite Response_dict. cbn [Werkzeug.legal_headers forallb snd].
  rewrite andb_true_r.
  destruct (Werkzeug.legal_value (kwarg "InternalFailure" error_type));
    [|reflexivity].
  eexists. split; [reflexivity|]. apply assemble_status.
Qed.

Example flask_error_response_bytes_message :
  flask_error_response (PyBytes "boom") (Some 400) None = Raise TypeError.
Proof. reflexivity. Qed.

(** The message is serialized before the header is checked: when both fail
    the error is the one of [json.dumps]. *)
Example flask_error_response_both_fail :
  flask_error_response (PyBytes "boom") (Some 400)
    (Some (String "a" (String CR (String "b" EmptyString))))
  = Raise TypeError.
Proof. reflexivity. Qed.

(** X2: every error response carries exactly three headers, in this order:
    [x-amzn-errortype] with the error type, the [Content-Type] that Flask
    gives by default, [text/html; charset=utf-8], and the [Content-Length]
    of the body. *)
Theorem flask_error_response_headers
  (msg : pyval) (code : option Z) (error_type : option string)
  (r : Flask.FlaskResponse) :
  flask_error_response msg code error_type = Ok r ->
  Flask.headers r =
  [ ("x-amzn-errortype", kwarg "InternalFailure" error_type);
    ("Content-Type", "text/html; charset=utf-8");
    ("Content-Length", str_of_nat (String.length (Flask.data r))) ].
Proof.
  unfold flask_error_response. intros H.
  destruct (Json.dumps _) as [text|e]; cbn [bind] in H; [|discriminate].
  rewrite Response_dict in H.
  destruct (Werkzeug.legal_headers _); [|discriminate].
  injection H as <-. reflexivity.
Qed.

Lemma flask_error_response_headers_witness :
  exists r,
    flask_error_response (PyStr "no such stack") (Some 404)
      (Some "ResourceNotFound") = Ok r
    /\ Flask.headers r =
       [ ("x-amzn-errortype", "ResourceNotFound");
         ("Content-Type", "text/html; charset=utf-8");
         ("Content-Length", str_of_nat (String.length (Flask.data r))) ].
Proof.
  eexists. split; [reflexivity|].
  apply (flask_error_response_headers (PyStr "no such stack") (Some 404)
           (Some "ResourceNotFound")).
  reflexivity.
Defined.

(** ** [requests_response] on its own results *)

(** X3: the content of a response that [requests_response] returns is never
    a dict: a dict has been replaced by its JSON text. *)
Theorem requests_response_never_dict
  (content : pyval) (status_code : option Z)
  (headers : option Werkzeug.header_arg) (r : Requests.RequestsResponse) :
  requests_response content status_code headers = Ok r ->
  isinstance_dict (Requests._content r) = false.
Proof.
  unfold requests_response. intros H.
  destruct (isinstance_dict content) eqn:Hd.
  - destruct (Json.dumps content) as [text|e]; cbn [bind] in H;
      [|discriminate].
    injection H as <-. reflexivity.
  - cbn [bind] in H. injection H as <-. exact Hd.
Qed.

Lemma requests_response_never_dict_witness :
  exists r,
    requests_response (PyDict [(PyStr "QueueUrl", PyStr "http://q")])
      None None = Ok r
    /\ isinstance_dict (Requests._content r) = false.
Proof.
  eexists. split; [reflexivity|].
  apply (requests_response_never_dict
           (PyDict [(PyStr "QueueUrl", PyStr "http://q")]) None None).
  reflexivity.
Defined.

(** X4: building a response from the content of a response that
    [requests_response] returned, with the same status code and headers,
    gives that response again: the content is serialized once only. *)
Theorem requests_response_again
  (content : pyval) (status_code : option Z)
  (headers : option Werkzeug.header_arg) (r : Requests.RequestsResponse) :
  requests_response content status_code headers = Ok r ->
  requests_response (Requests._content r) status_code headers = Ok r.
Proof.
  unfold requests_response. intros H.
  destruct (isinstance_dict content) eqn:Hd.
  - destruct (Json.dumps content) as [text|e]; cbn [bind] in H;
      [|discriminate].
    injection H as <-. reflexivity.
  - cbn [bind] in H. injection H as <-.
    cbn [Requests._content]. rewrite Hd. reflexivity.
Qed.

Lemma requests_response_again_witness :
  exists r,
    requests_response (PyDict [(PyStr "QueueUrl", PyStr "http://q")])
      (Some 201) None = Ok r
    /\ requests_response (Requests._content r) (Some 201) None = Ok r.
Proof.
  eexists. split; [reflexivity|].
  apply (requests_response_again
           (PyDict [(PyStr "QueueUrl", PyStr "http://q")]) (Some 201) None).
  reflexivity.
Defined.

(** X5: for a dict whose keys and values are all strings, the content of the
    response is a JSON text that reads back as the items of the dict, in
    their order. *)
Theorem requests_response_str_dict
  (d : list (string * string)) (status_code : option Z)
  (headers : option Werkzeug.header_arg) :
  exists r text,
    requests_response (Json.str_dict d) status_code headers = Ok r
    /\ Requests._content r = PyStr text
    /\ Json.object_members text = Some d.
Proof.
  destruct (object_members_dumps d) as [text [Hd Hm]].
  unfold requests_response.
  change (isinstance_dict (Json.str_dict d)) with true. cbn iota.
  rewrite Hd. cbn [bind].
  eexists. exists text. split; [reflexivity|]. split; [reflexivity|exact Hm].
Qed.

(** ** Looking headers up after [dict(headers)] *)

Section HeadersLookup.
Import Werkzeug.
Local Open Scope list_scope.

Ltac names_prop :=
  repeat match goal with
         | H : same_name _ _ = true |- _ => apply same_name_true in H
         | H : same_name _ _ = false |- _ => apply same_name_false in H
         | |- same_name _ _ = true => apply same_name_true
         | |- same_name _ _ = false => apply same_name_false
         end.

Lemma same_name_refl (a : string) : same_name a a = true.
Proof. unfold same_name. apply String.eqb_refl. Qed.

Lemma same_name_left (a b c : string) :
  same_name a b = true -> same_name a c = same_name b c.
Proof.
  intros H. apply same_name_true in H. unfold same_name. now rewrite H.
Qed.

Lemma same_name_right (a b c : string) :
  same_name a b = true -> same_name c a = same_name c b.
Proof.
  intros H. apply same_name_true in H. unfold same_name. now rewrite H.
Qed.

Lemma getitem_same (h : Headers) (a b : string) :
  same_name a b = true -> getitem h a = getitem h b.
Proof.
  intros H. induction h as [|[k v] h IH]; [reflexivity|].
  cbn [getitem]. rewrite (same_name_right a b k H), IH. reflexivity.
Qed.

Lemma contains_getitem (h : Headers) (name : string) :
  contains h name = match getitem h name with Some _ => true | None => false end.
Proof.
  unfold contains. induction h as [|[k v] h IH]; [reflexivity|].
  cbn [existsb getitem fst]. destruct (same_name k name); [reflexivity|].
  exact IH.
Qed.

Lemma getitem_app (h1 h2 : Headers) (name : string) :
  getitem (h1 ++ h2) name =
  match getitem h1 name with
  | Some v => Some v
  | None => getitem h2 name
  end.
Proof.
  induction h1 as [|[k v] h1 IH]; [reflexivity|].
  cbn [app getitem]. destruct (same_name k name); [reflexivity|exact IH].
Qed.

Lemma contains_key (h : Headers) (k name : string) :
  In k (map fst h) -> same_name k name = true -> contains h name = true.
Proof.
  intros Hin Hs. unfold contains. apply existsb_exists.
  apply in_map_iff in Hin. destruct Hin as [[k' v] [Hk Hin]].
  cbn in Hk. subst k'. exists (k, v). auto.
Qed.

Lemma getitem_key (h : Headers) (k : string) :
  In k (map fst h) -> exists v, getitem h k = Some v.
Proof.
  intros Hin.
  pose proof (contains_key h k k Hin (same_name_refl k)) as Hc.
  rewrite contains_getitem in Hc.
  destruct (getitem h k) as [v|]; [eauto|discriminate].
Qed.

Lemma dict_setitem_same (d : Dict) (k v : string) :
  In k (map fst d) -> (forall v', In (k, v') d -> v' = v) ->
  dict_setitem d k v = d.
Proof.
  induction d as [|[k' v'] d IH]; intros Hin Hv; [destruct Hin|].
  cbn [dict_setitem]. destruct (String.eqb_spec k' k) as [->|Hne].
  - rewrite (Hv v') by now left. reflexivity.
  - rewrite IH; [reflexivity| |].
    + destruct Hin as [Hin|Hin]; [cbn in Hin; congruence|exact Hin].
    + intros v'' Hin'. apply Hv. now right.
Qed.

Lemma NoDup_snoc (l : list string) (x : string) :
  NoDup l -> ~ In x l -> NoDup (l ++ [x]).
Proof.
  intros Hl Hx. apply NoDup_app; [exact Hl|repeat constructor; intros []|].
  intros a Ha [<-|[]]. contradiction.
Qed.

(** The state of the loop of [dict(headers)] after the pairs [pre]: the
    dict answers every lookup like [h] for the names seen so far, holds for
    each key the value that [h] gives for it, and holds each key once. *)
Lemma dict_fold_lookup (h : Headers) :
  forall (suf pre : Headers) (acc : Dict),
    h = pre ++ suf ->
    (forall name,
        getitem acc name = if contains pre name then getitem h name else None) ->
    (forall k v, In (k, v) acc -> getitem h k = Some v) ->
    (forall k, In k (map fst acc) -> In k (map fst pre)) ->
    NoDup (map fst acc) ->
    let d := fold_left
               (fun d kv =>
                  match getitem h (fst kv) with
                  | Some v => dict_setitem d (fst kv) v
                  | None => d
                  end) suf acc in
    (forall name, getitem d name = getitem h name)
    /\ (forall k v, In (k, v) d -> getitem h k = Some v)
    /\ NoDup (map fst d).
Proof.
  induction suf as [|[k x] suf IH]; intros pre acc Hh Hlook Hval Hkeys Hnd.
  - cbn. rewrite app_nil_r in Hh. subst pre. repeat split; auto.
    intros name. rewrite Hlook, contains_getitem.
    destruct (getitem h name); reflexivity.
  - cbn [fold_left fst].
    assert (Hk : In k (map fst h)).
    { subst h. rewrite map_app. apply in_or_app. right. now left. }
    destruct (getitem_key h k Hk) as [v Hv]. rewrite Hv.
    assert (Hh' : h = (pre ++ [(k, x)]) ++ suf)
      by (rewrite <- app_assoc; exact Hh).
    destruct (in_dec string_dec k (map fst acc)) as [Hin|Hnin].
    + rewrite dict_setitem_same; [| exact Hin |].
      * apply (IH (pre ++ [(k, x)]) acc Hh'); auto.
        -- intros name. rewrite Hlook.
           unfold contains at 2. rewrite existsb_app. cbn [existsb fst].
           fold (contains pre name).
           destruct (contains pre name) eqn:Hc; [reflexivity|].
           destruct (same_name k name) eqn:Hs; [|reflexivity].
           rewrite (contains_key pre k name (Hkeys k Hin) Hs) in Hc.
           discriminate.
        -- intros k' Hin'. rewrite map_app. apply in_or_app. left. auto.
      * intros v' Hin'. apply Hval in Hin'. congruence.
    + rewrite dict_setitem_fresh by exact Hnin.
      apply (IH (pre ++ [(k, x)]) (acc ++ [(k, v)]) Hh').
      * intros name. rewrite getitem_app, Hlook.
        unfold contains at 2. rewrite existsb_app. cbn [existsb fst getitem].
        fold (contains pre name).
        destruct (contains pre name) eqn:Hc.
        -- cbn [orb].
           assert (Hch : contains h name = true).
           { subst h. unfold contains. rewrite existsb_app.
             fold (contains pre name). now rewrite Hc. }
           rewrite contains_getitem in Hch.
           destruct (getitem h name); [reflexivity|discriminate].
        -- cbn [orb]. destruct (same_name k name) eqn:Hs; [|reflexivity].
           cbn [orb]. rewrite <- (getitem_same h k name Hs). now rewrite Hv.
      * intros k' v' Hin'. apply in_app_or in Hin'.
        destruct Hin' as [Hin'|[Heq|[]]]; [now apply Hval|].
        injection Heq as <- <-. exact Hv.
      * intros k' Hin'. rewrite map_app in Hin' |- *.
        apply in_app_or in Hin'. apply in_or_app.
        destruct Hin' as [Hin'|Hin']; [left; auto | now right].
      * rewrite map_app. now apply NoDup_snoc.
Qed.

Lemma dict_of_headers_facts (h : Headers) :
  (forall name, getitem (dict_of_headers h) name = getitem h name)
  /\ (forall k v, In (k, v) (dict_of_headers h) -> getitem h k = Some v)
  /\ NoDup (map fst (dict_of_headers h)).
Proof.
  unfold dict_of_headers.
  apply (dict_fold_lookup h h [] []); auto.
  - intros k v [].
  - constructor.
Qed.

Lemma getitem_filter_other (h : Headers) (key name : string) :
  same_name key name = false ->
  getitem (filter (fun kv => negb (same_name (fst kv) key)) h) name
  = getitem h name.
Proof.
  intros Hk. induction h as [|[k v] h IH]; [reflexivity|].
  cbn [filter fst getitem]. destruct (same_name k key) eqn:Ek; cbn [negb].
  - rewrite (same_name_left k key name Ek), Hk. exact IH.
  - cbn [getitem]. now rewrite IH.
Qed.

(** A lookup after [headers[key] = value]. *)
Lemma getitem_set (h : Headers) (key value name : string) :
  getitem (set h key value) name =
  if same_name key name then Some value else getitem h name.
Proof.
  induction h as [|[k v] h IH]; [reflexivity|].
  cbn [set]. destruct (same_name k key) eqn:Ek.
  - cbn [getitem]. destruct (same_name key name) eqn:En; [reflexivity|].
    rewrite (same_name_left k key name Ek), En.
    now apply getitem_filter_other.
  - cbn [getitem]. rewrite IH.
    destruct (same_name k name) eqn:Ekn; [|reflexivity].
    destruct (same_name key name) eqn:En; [|reflexivity].
    names_prop. congruence.
Qed.

Lemma In_set_inv (h : Headers) (key value k v : string) :
  In (k, v) (set h key value) ->
  (k, v) = (key, value) \/ (In (k, v) h /\ same_name k key = false).
Proof.
  induction h as [|[k' v'] h IH]; cbn [set].
  - intros [H|[]]. now left.
  - destruct (same_name k' key) eqn:Ek.
    + intros [H|H]; [now left|]. apply filter_In in H.
      destruct H as [Hin Hf]. cbn [fst] in Hf. apply negb_true_iff in Hf.
      right. split; [now right|exact Hf].
    + intros [H|H].
      * injection H as <- <-. right. split; [now left|exact Ek].
      * destruct (IH H) as [Heq|[Hin Hf]]; [now left|].
        right. split; [now right|exact Hf].
Qed.

Lemma set_keys (h : Headers) (key value : string) :
  NoDup (map fst h) -> NoDup (map fst (set h key value)).
Proof.
  induction h as [|[k v] h IH]; intros Hnd.
  - repeat constructor. intros [].
  - cbn [map fst] in Hnd. inversion Hnd as [|x l Hnotin Hnd']; subst.
    cbn [set]. destruct (same_name k key) eqn:Ek; cbn [map fst].
    + constructor.
      * intros Hin. apply in_map_iff in Hin.
        destruct Hin as [[k' v'] [Hk Hin]]. cbn in Hk. subst k'.
        apply filter_In in Hin. destruct Hin as [_ Hf]. cbn [fst] in Hf.
        rewrite same_name_refl in Hf. discriminate.
      * clear - Hnd'. induction h as [|[k' v'] h IH]; [constructor|].
        cbn [map fst] in Hnd'. inversion Hnd' as [|x l Hn Hnd]; subst.
        cbn [filter fst]. destruct (negb (same_name k' key)); [|auto].
        cbn [map fst]. constructor; [|auto].
        intros Hin. apply Hn. apply in_map_iff in Hin.
        destruct Hin as [[k'' v''] [Hk Hin]]. cbn in Hk. subst k''.
        apply filter_In in Hin. apply in_map_iff. exists (k', v''). tauto.
    + constructor; [|auto].
      intros Hin. apply in_map_iff in Hin.
      destruct Hin as [[k' v'] [Hk Hin]]. cbn in Hk. subst k'.
      apply In_set_inv in Hin. destruct Hin as [Heq|[Hin _]].
      * injection Heq as <- _. rewrite same_name_refl in Ek. discriminate.
      * apply Hnotin. apply in_map_iff. exists (k, v'). auto.
Qed.

Lemma set_values (h : Headers) (key value : string) :
  (forall k v, In (k, v) h -> getitem h k = Some v) ->
  forall k v, In (k, v) (set h key value) ->
              getitem (set h key value) k = Some v.
Proof.
  intros Hval k v Hin. rewrite getitem_set.
  apply In_set_inv in Hin. destruct Hin as [Heq|[Hin Hf]].
  - injection Heq as -> ->. now rewrite same_name_refl.
  - assert (same_name key k = false) as ->.
    { names_prop. congruence. }
    now apply Hval.
Qed.

Lemma set_again (h : Headers) (key value : string) :
  set (set h key value) key value = set h key value.
Proof.
  induction h as [|[k v] h IH].
  - cbn [set]. now rewrite same_name_refl.
  - cbn [set]. destruct (same_name k key) eqn:Ek.
    + cbn [set]. rewrite same_name_refl. f_equal.
      apply forallb_filter_id. apply forallb_filter.
    + cbn [set]. rewrite Ek. now rewrite IH.
Qed.

(** [dict(headers)] changes nothing when [headers] holds each key once and
    every pair carries the value that a lookup of its name returns. *)
Lemma dict_fold_canonical (h : Headers) :
  forall suf pre : Headers,
    h = pre ++ suf -> NoDup (map fst h) ->
    (forall k v, In (k, v) h -> getitem h k = Some v) ->
    fold_left
      (fun d kv =>
         match getitem h (fst kv) with
         | Some v => dict_setitem d (fst kv) v
         | None => d
         end) suf pre = h.
Proof.
  induction suf as [|[k v] suf IH]; intros pre Hh Hnd Hval.
  - cbn. now rewrite app_nil_r in Hh.
  - cbn [fold_left fst].
    rewrite (Hval k v) by (subst h; apply in_or_app; right; now left).
    rewrite dict_setitem_fresh.
    + apply IH; auto. now rewrite <- app_assoc.
    + subst h. rewrite map_app in Hnd. cbn [map fst] in Hnd.
      apply NoDup_remove_2 in Hnd. intros Hin. apply Hnd.
      apply in_or_app. now left.
Qed.

Lemma getitem_value (h : Headers) (k v : string) :
  getitem h k = Some v -> exists k', In (k', v) h.
Proof.
  induction h as [|[k' v'] h IH]; [discriminate|].
  cbn [getitem]. destruct (same_name k' k).
  - intros H. injection H as <-. exists k'. now left.
  - intros H. destruct (IH H) as [k'' Hin]. exists k''. now right.
Qed.

(** Values that pass the check still pass it after [dict(headers)] and
    after a header is set to a value that passes. *)
Lemma legal_dict_of_headers (h : Headers) :
  legal_headers h = true -> legal_headers (dict_of_headers h) = true.
Proof.
  unfold legal_headers. rewrite !forallb_forall. intros Hl [k v] Hin.
  destruct (dict_of_headers_facts h) as [_ [Hval _]].
  destruct (getitem_value h k v (Hval k v Hin)) as [k' Hin'].
  exact (Hl (k', v) Hin').
Qed.

Lemma legal_set (h : Headers) (key value : string) :
  legal_headers h = true -> legal_value value = true ->
  legal_headers (set h key value) = true.
Proof.
  unfold legal_headers. rewrite !forallb_forall. intros Hl Hv [k v] Hin.
  apply In_set_inv in Hin. destruct Hin as [Heq|[Hin _]].
  - injection Heq as -> ->. exact Hv.
  - exact (Hl (k, v) Hin).
Qed.

End HeadersLookup.

(** ** The round trip in general *)

(** The round trip returns the response assembled over [dict(headers)], and
    returns nothing when a value of that dict holds a line break. *)
Lemma round_trip_assemble (r : Flask.FlaskResponse) :
  round_trip r =
  if Werkzeug.legal_headers (Werkzeug.dict_of_headers (Flask.headers r))
  then Some (Flask.assemble (Flask.Bytes (Flask.data r)) (Flask.status_code r)
               (Werkzeug.dict_of_headers (Flask.headers r)))
  else None.
Proof.
  unfold round_trip, flask_to_requests_response, requests_response.
  cbn [isinstance_dict bind kwarg]. unfold requests_to_flask_response.
  cbn [Requests.content Requests._content Requests.status_code
       Requests.headers Flask.as_body Werkzeug.to_dict].
  rewrite Response_dict.
  destruct (Werkzeug.legal_headers
              (Werkzeug.dict_of_headers (Flask.headers r))); reflexivity.
Qed.

(** X6: for every Flask response whose header values hold no line break,
    the round trip through a [requests] response succeeds and keeps the body
    and the status code; looking a header name up in the result gives what
    it gave before, except that [Content-Length] is the length of the body
    and a missing [Content-Type] is [text/html; charset=utf-8]. *)
Theorem round_trip_lookup (r : Flask.FlaskResponse) :
  Werkzeug.legal_headers (Flask.headers r) = true ->
  exists r',
    round_trip r = Some r'
    /\ Flask.data r' = Flask.data r
    /\ Flask.status_code r' = Flask.status_code r
    /\ forall name,
         Werkzeug.getitem (Flask.headers r') name =
         if Werkzeug.same_name "Content-Length" name
         then Some (str_of_nat (String.length (Flask.data r)))
         else match Werkzeug.getitem (Flask.headers r) name with
              | Some v => Some v
              | None =>
                  if Werkzeug.same_name "Content-Type" name
                  then Some "text/html; charset=utf-8"
                  else None
              end.
Proof.
  intros Hlegal. eexists. split.
  { rewrite round_trip_assemble, legal_dict_of_headers by exact Hlegal.
    reflexivity. }
  split; [reflexivity|]. split; [reflexivity|].
  intros name. cbn [Flask.assemble Flask.headers].
  destruct (dict_of_headers_facts (Flask.headers r)) as [Hlook _].
  rewrite getitem_set.
  destruct (Werkzeug.same_name "Content-Length" name); [reflexivity|].
  rewrite contains_getitem, Hlook.
  destruct (Werkzeug.getitem (Flask.headers r) "content-type") as [ct|] eqn:Hct.
  - rewrite Hlook.
    destruct (Werkzeug.getitem (Flask.headers r) name) as [v|] eqn:Hn;
      [reflexivity|].
    destruct (Werkzeug.same_name "Content-Type" name) eqn:Hs; [|reflexivity].
    rewrite <- (getitem_same (Flask.headers r) "Content-Type" name Hs) in Hn.
    rewrite (getitem_same (Flask.headers r) "Content-Type" "content-type")
      in Hn by reflexivity.
    congruence.
  - rewrite getitem_set, Hlook.
    destruct (Werkzeug.same_name "Content-Type" name) eqn:Hs.
    + rewrite <- (getitem_same (Flask.headers r) "Content-Type" name Hs).
      rewrite (getitem_same (Flask.headers r) "Content-Type" "content-type")
        by reflexivity.
      rewrite Hct. reflexivity.
    + destruct (Werkzeug.getitem (Flask.headers r) name); reflexivity.
Qed.

(** X6 at the response with two cookies. *)
Lemma round_trip_lookup_witness :
  exists r',
    round_trip two_cookies = Some r'
    /\ Flask.data r' = Flask.data two_cookies
    /\ Flask.status_code r' = Flask.status_code two_cookies
    /\ forall name,
         Werkzeug.getitem (Flask.headers r') name =
         if Werkzeug.same_name "Content-Length" name
         then Some (str_of_nat (String.length (Flask.data two_cookies)))
         else match Werkzeug.getitem (Flask.headers two_cookies) name with
              | Some v => Some v
              | None =>
                  if Werkzeug.same_name "Content-Type" name
                  then Some "text/html; charset=utf-8"
                  else None
              end.
Proof.
  apply (round_trip_lookup two_cookies). reflexivity.
Defined.

(** X7: the round trip is idempotent: a response that came out of it goes
    through it unchanged. *)
Theorem round_trip_idempotent (r r' : Flask.FlaskResponse) :
  round_trip r = Some r' -> round_trip r' = Some r'.
Proof.
  rewrite round_trip_assemble.
  destruct (Werkzeug.legal_headers
              (Werkzeug.dict_of_headers (Flask.headers r))) eqn:Hlegal;
    [|discriminate].
  intros H. injection H as <-.
  rewrite round_trip_assemble.
  cbn [Flask.assemble Flask.data Flask.status_code Flask.headers].
  destruct (dict_of_headers_facts (Flask.headers r)) as [Hlook [Hval Hnd]].
  set (d := Werkzeug.dict_of_headers (Flask.headers r)) in *.
  assert (Hd : forall k v, In (k, v) d -> Werkzeug.getitem d k = Some v).
  { intros k v Hin. rewrite Hlook. now apply Hval. }
  pose (h1 := if Werkzeug.contains d "content-type" then d
              else Werkzeug.set d "Content-Type" Flask.default_content_type).
  assert (Hnd1 : NoDup (map fst h1)).
  { unfold h1. destruct (Werkzeug.contains d "content-type");
      [exact Hnd | now apply set_keys]. }
  assert (Hval1 : forall k v, In (k, v) h1 -> Werkzeug.getitem h1 k = Some v).
  { unfold h1. destruct (Werkzeug.contains d "content-type");
      [exact Hd | now apply set_values]. }
  assert (Hct1 : Werkzeug.contains h1 "content-type" = true).
  { unfold h1. destruct (Werkzeug.contains d "content-type") eqn:E;
      [exact E | apply contains_set; now right]. }
  assert (Hl1 : Werkzeug.legal_headers h1 = true).
  { unfold h1. destruct (Werkzeug.contains d "content-type");
      [exact Hlegal | now apply legal_set]. }
  pose (len := str_of_nat (String.length (Flask.data r))).
  pose (h2 := Werkzeug.set h1 "Content-Length" len).
  assert (Hfix : Werkzeug.dict_of_headers h2 = h2).
  { unfold Werkzeug.dict_of_headers.
    apply (dict_fold_canonical h2 h2 []); [reflexivity| |].
    - now apply set_keys.
    - now apply set_values. }
  assert (Hl2 : Werkzeug.legal_headers h2 = true).
  { apply legal_set; [exact Hl1|apply legal_str_of_nat]. }
  assert (Hct2 : Werkzeug.contains h2 "content-type" = true).
  { apply contains_set. now left. }
  change (Werkzeug.dict_of_headers
            (Werkzeug.set
               (if Werkzeug.contains d "content-type" then d
                else Werkzeug.set d "Content-Type" Flask.default_content_type)
               "Content-Length"
               (str_of_nat (String.length (Flask.data r)))))
    with (Werkzeug.dict_of_headers h2).
  rewrite Hfix, Hl2, Hct2. unfold h2. now rewrite set_again.
Qed.

Lemma round_trip_idempotent_witness :
  round_trip
    {| Flask.data := "ok"; Flask.status_code := 200;
       Flask.headers := [("Set-Cookie", "a=1");
                         ("Content-Type", "text/html; charset=utf-8");
                         ("Content-Length", "2")] |}
  = Some {| Flask.data := "ok"; Flask.status_code := 200;
            Flask.headers := [("Set-Cookie", "a=1");
                              ("Content-Type", "text/html; charset=utf-8");
                              ("Content-Length", "2")] |}.
Proof.
  apply (round_trip_idempotent two_cookies). reflexivity.
Defined.


(** ** From [requests] to Flask and back *)



(** With a line break in a header value the way back raises [ValueError]
    and nothing comes back. *)
Example back_trip_line_break :
  requests_to_flask_response
    {| Requests._content := PyBytes "ok";
       Requests.status_code := 200;
       Requests.headers :=
         Werkzeug.AsDict
           [("X-Note", String "a" (String LF (String "b" EmptyString)))] |}
  = Some (Raise ValueError)
  /\ back_trip
       {| Requests._content := PyBytes "ok";
          Requests.status_code := 200;
          Requests.headers :=
            Werkzeug.AsDict
              [("X-Note", String "a" (String LF (String "b" EmptyString)))] |}
     = None.
Proof. split; reflexivity. Qed.

(** * The helpers of the integration test *)

Section TestHelpers.
Import test_cloudformation.

Lemma prefix_app (sub s : string) :
  String.prefix sub s = true <-> exists b, s = sub ++ b.
Proof.
  revert s. induction sub as [|c sub IH]; intros s.
  - split; [intros _; now exists s|]. destruct s; reflexivity.
  - destruct s as [|c' s]; cbn [String.prefix].
    + split; [discriminate|]. intros [b Hb]. discriminate.
    + destruct (ascii_dec c c') as [->|Hne].
      * rewrite IH. split; intros [b Hb]; exists b.
        -- cbn. now rewrite Hb.
        -- cbn in Hb. now injection Hb.
      * split; [discriminate|]. intros [b Hb]. cbn in Hb.
        injection Hb as Hc _. congruence.
Qed.

(** [sub in s] holds exactly when [s] is some text, [sub], some text. *)
Lemma str_in_spec (sub s : string) :
  str_in sub s = true <-> exists a b, s = a ++ sub ++ b.
Proof.
  induction s as [|c s IH].
  - cbn [str_in]. destruct (String.prefix sub EmptyString) eqn:Hp.
    + split; [intros _|reflexivity].
      apply prefix_app in Hp. destruct Hp as [b Hb].
      exists EmptyString, b. exact Hb.
    + split; [discriminate|]. intros [a [b Hab]].
      destruct a as [|c a]; [|discriminate].
      assert (String.prefix sub EmptyString = true)
        by (apply prefix_app; eauto).
      congruence.
  - cbn [str_in]. destruct (String.prefix sub (String c s)) eqn:Hp.
    + split; [intros _|reflexivity].
      apply prefix_app in Hp. destruct Hp as [b Hb].
      exists EmptyString, b. exact Hb.
    + rewrite IH. split.
      * intros [a [b Hab]]. exists (String c a), b. cbn. now rewrite Hab.
      * intros [a [b Hab]]. destruct a as [|c' a].
        -- assert (String.prefix sub (String c s) = true)
             by (apply prefix_app; eauto).
           congruence.
        -- cbn in Hab. injection Hab as _ Hs. eauto.
Qed.

(** [s.endswith(suffix)] holds exactly when [s] is some text and then
    [suffix]. *)
Lemma endswith_spec (s suffix : string) :
  endswith s suffix = true <-> exists a, s = a ++ suffix.
Proof.
  induction s as [|c s IH]; cbn [endswith].
  - destruct (String.eqb_spec EmptyString suffix) as [<-|Hne].
    + split; [intros _; now exists EmptyString|reflexivity].
    + split; [discriminate|]. intros [a Ha].
      destruct a; cbn in Ha; [congruence|discriminate].
  - destruct (String.eqb_spec (String c s) suffix) as [<-|Hne].
    + split; [intros _; now exists EmptyString|reflexivity].
    + rewrite IH. split.
      * intros [a Ha]. exists (String c a). cbn. now rewrite Ha.
      * intros [a Ha]. destruct a as [|c' a]; cbn in Ha; [congruence|].
        injection Ha as _ Hs. eauto.
Qed.

End TestHelpers.

(** X9: [bucket_exists] returns [True] exactly when a listed bucket has the
    name and [None] exactly when none has; it never returns [False]. *)
Theorem bucket_exists_listed
  (list_buckets : list test_cloudformation.Bucket) (name : string) :
  (test_cloudformation.bucket_exists list_buckets name = PyBool true
   <-> In name (map test_cloudformation.Name list_buckets))
  /\ (test_cloudformation.bucket_exists list_buckets name = PyNone
      <-> ~ In name (map test_cloudformation.Name list_buckets))
  /\ test_cloudformation.bucket_exists list_buckets name <> PyBool false.
Proof.
  induction list_buckets as [|b bs [IH1 [IH2 IH3]]].
  - cbn. repeat split; try discriminate; try tauto.
  - cbn [test_cloudformation.bucket_exists map In].
    destruct (String.eqb_spec (test_cloudformation.Name b) name) as [He|Hne].
    + repeat split; try discriminate; tauto.
    + rewrite IH1, IH2. repeat split; tauto.
Qed.

(** X10: a name that contains [://] is taken by [queue_exists] as the queue
    URL itself, and any other name as the URL that [get_sqs_queue_url]
    gives for it; the result is true exactly when [queue_url_exists] finds
    that URL, and [None] otherwise. *)
Theorem queue_exists_url
  (list_queues : list string) (get_sqs_queue_url : string -> string)
  (name : string) :
  ((exists a b, name = a ++ "://" ++ b) ->
   test_cloudformation.truthy
     (test_cloudformation.queue_exists list_queues get_sqs_queue_url name)
   = test_cloudformation.queue_url_exists list_queues name)
  /\ ((forall a b, name <> a ++ "://" ++ b) ->
      test_cloudformation.truthy
        (test_cloudformation.queue_exists list_queues get_sqs_queue_url name)
      = test_cloudformation.queue_url_exists list_queues
          (get_sqs_queue_url name))
  /\ (test_cloudformation.queue_exists list_queues get_sqs_queue_url name
      = PyBool true
      \/ test_cloudformation.queue_exists list_queues get_sqs_queue_url name
         = PyNone).
Proof.
  assert (Hloop : forall url qs,
             let v := (fix loop (queue_urls : list string) : pyval :=
                         match queue_urls with
                         | [] => PyNone
                         | queue_url :: rest =>
                             if String.eqb queue_url url then PyBool true
                             else loop rest
                         end) qs in
             test_cloudformation.truthy v
             = test_cloudformation.queue_url_exists qs url
             /\ (v = PyBool true \/ v = PyNone)).
  { intros url qs. induction qs as [|q qs [IH1 IH2]]; cbn zeta in *.
    - split; [reflexivity|now right].
    - cbn [test_cloudformation.queue_url_exists existsb].
      rewrite (String.eqb_sym url q).
      destruct (String.eqb q url); [split; [reflexivity|now left]|].
      split; [exact IH1|exact IH2]. }
  unfold test_cloudformation.queue_exists.
  destruct (test_cloudformation.str_in "://" name) eqn:Hin.
  - split; [intros _; apply Hloop|]. split; [|apply Hloop].
    intros Hno. apply str_in_spec in Hin. destruct Hin as [a [b Hab]].
    destruct (Hno a b Hab).
  - split; [|split; [intros _; apply Hloop|apply Hloop]].
    intros Hyes. apply str_in_spec in Hyes. congruence.
Qed.

Lemma queue_exists_url_witness :
  test_cloudformation.truthy
    (test_cloudformation.queue_exists
       ["http://localhost:4576/queue/cf-test-queue-1"]
       (fun name => "http://localhost:4576/queue/" ++ name)
       "http://localhost:4576/queue/cf-test-queue-1")
  = test_cloudformation.queue_url_exists
      ["http://localhost:4576/queue/cf-test-queue-1"]
      "http://localhost:4576/queue/cf-test-queue-1"
  /\ test_cloudformation.truthy
       (test_cloudformation.queue_exists
          ["http://localhost:4576/queue/cf-test-queue-1"]
          (fun name => "http://localhost:4576/queue/" ++ name)
          "cf-test-queue-1")
     = true.
Proof.
  split.
  - apply (proj1 (queue_exists_url
                    ["http://localhost:4576/queue/cf-test-queue-1"]
                    (fun name => "http://localhost:4576/queue/" ++ name)
                    "http://localhost:4576/queue/cf-test-queue-1")).
    exists "http", "localhost:4576/queue/cf-test-queue-1". reflexivity.
  - reflexivity.
Defined.

(** X11: when [topic_exists] returns an ARN, it is the first listed ARN
    that ends with a colon and the name; the result is true exactly when
    some listed ARN ends so, and [None] otherwise. *)
Theorem topic_exists_first
  (list_topics : list test_cloudformation.Topic) (name : string) :
  (forall arn,
      test_cloudformation.topic_exists list_topics name = PyStr arn ->
      exists before after,
        test_cloudformation.get_topic_arns list_topics
        = (before ++ arn :: after)%list
        /\ (exists a, arn = a ++ ":" ++ name)
        /\ forall x a, In x before -> x <> a ++ ":" ++ name)
  /\ (test_cloudformation.truthy
        (test_cloudformation.topic_exists list_topics name) = true
      <-> exists x a,
            In x (test_cloudformation.get_topic_arns list_topics)
            /\ x = a ++ ":" ++ name)
  /\ (test_cloudformation.topic_exists list_topics name = PyNone
      <-> forall x a,
            In x (test_cloudformation.get_topic_arns list_topics) ->
            x <> a ++ ":" ++ name).
Proof.
  induction list_topics as [|t ts [IH1 [IH2 IH3]]].
  - cbn. split; [discriminate|]. split.
    + split; [discriminate|]. intros [x [a [[] _]]].
    + split; [intros _ x a []|reflexivity].
  - cbn [test_cloudformation.topic_exists test_cloudformation.get_topic_arns
         map].
    destruct (test_cloudformation.endswith
                (test_cloudformation.TopicArn t) (":" ++ name)) eqn:He.
    + apply endswith_spec in He. destruct He as [a Ha].
      split; [|split].
      * intros arn H. injection H as <-.
        exists [], (test_cloudformation.get_topic_arns ts).
        split; [reflexivity|]. split; [eauto|]. intros x a' [].
      * split; [intros _|intros _].
        -- exists (test_cloudformation.TopicArn t), a.
           split; [now left|exact Ha].
        -- cbn [test_cloudformation.truthy]. rewrite Ha.
           destruct a; reflexivity.
      * split; [discriminate|]. intros Hno.
        destruct (Hno (test_cloudformation.TopicArn t) a (or_introl eq_refl) Ha).
    + assert (Hnot : forall a,
                 test_cloudformation.TopicArn t <> a ++ ":" ++ name).
      { intros a Ha.
        assert (test_cloudformation.endswith
                  (test_cloudformation.TopicArn t) (":" ++ name) = true)
          by (apply endswith_spec; eauto).
        congruence. }
      split; [|split].
      * intros arn H. destruct (IH1 arn H) as [before [after [Hl [Hs Hb]]]].
        exists (test_cloudformation.TopicArn t :: before), after.
        split; [cbn; unfold test_cloudformation.get_topic_arns in Hl;
                now rewrite Hl|].
        split; [exact Hs|].
        intros x a [<-|Hin]; [apply Hnot|now apply Hb].
      * rewrite IH2. split.
        -- intros [x [a [Hin Hx]]]. exists x, a. split; [now right|exact Hx].
        -- intros [x [a [[<-|Hin] Hx]]]; [destruct (Hnot a Hx)|eauto].
      * rewrite IH3. split.
        -- intros Hno x a [<-|Hin]; [apply Hnot|now apply Hno].
        -- intros Hno x a Hin. apply Hno. now right.
Qed.

(** X12: [get_stack_details] returns the first stack of the answer whose
    name is the one asked for, and [None] exactly when the answer holds no
    stack of that name. *)
Theorem get_stack_details_found
  (describe_stacks : string -> list test_cloudformation.StackDescription)
  (stack_name : string) :
  (forall stack,
      test_cloudformation.get_stack_details describe_stacks stack_name
      = Some stack ->
      test_cloudformation.StackName stack = stack_name
      /\ exists before after,
           describe_stacks stack_name = (before ++ stack :: after)%list
           /\ ~ In stack_name (map test_cloudformation.StackName before))
  /\ (test_cloudformation.get_stack_details describe_stacks stack_name = None
      <-> ~ In stack_name
            (map test_cloudformation.StackName (describe_stacks stack_name))).
Proof.
  unfold test_cloudformation.get_stack_details.
  induction (describe_stacks stack_name) as [|s l [IH1 IH2]].
  - split; [discriminate|]. cbn. tauto.
  - destruct (String.eqb_spec (test_cloudformation.StackName s) stack_name)
      as [He|Hne].
    + split.
      * intros stack H. injection H as <-. split; [exact He|].
        exists [], l. split; [reflexivity|]. intros [].
      * cbn [map In]. split; [discriminate|tauto].
    + split.
      * intros stack H. destruct (IH1 stack H) as [Hn [before [after [Hl Hb]]]].
        split; [exact Hn|]. exists (s :: before), after.
        split; [cbn; now rewrite Hl|]. cbn [map In]. tauto.
      * rewrite IH2. cbn [map In]. tauto.
Qed.

(** X13: [describe_stack_resource] returns the first resource of the stack
    whose logical id is the one asked for, and [None] exactly when the stack
    lists no resource of that logical id. *)
Theorem describe_stack_resource_found
  (describe_stack_resources :
     string -> list test_cloudformation.StackResource)
  (stack_name resource_logical_id : string) :
  (forall resource,
      test_cloudformation.describe_stack_resource describe_stack_resources
        stack_name resource_logical_id = Some resource ->
      test_cloudformation.LogicalResourceId resource = resource_logical_id
      /\ exists before after,
           describe_stack_resources stack_name
           = (before ++ resource :: after)%list
           /\ ~ In resource_logical_id
                (map test_cloudformation.LogicalResourceId before))
  /\ (test_cloudformation.describe_stack_resource describe_stack_resources
        stack_name resource_logical_id = None
      <-> ~ In resource_logical_id
            (map test_cloudformation.LogicalResourceId
               (describe_stack_resources stack_name))).
Proof.
  unfold test_cloudformation.describe_stack_resource.
  induction (describe_stack_resources stack_name) as [|s l [IH1 IH2]].
  - split; [discriminate|]. cbn. tauto.
  - destruct (String.eqb_spec (test_cloudformation.LogicalResourceId s)
                resource_logical_id) as [He|Hne].
    + split.
      * intros resource H. injection H as <-. split; [exact He|].
        exists [], l. split; [reflexivity|]. intros [].
      * cbn [map In]. split; [discriminate|tauto].
    + split.
      * intros resource H.
        destruct (IH1 resource H) as [Hn [before [after [Hl Hb]]]].
        split; [exact Hn|]. exists (s :: before), after.
        split; [cbn; now rewrite Hl|]. cbn [map In]. tauto.
      * rewrite IH2. cbn [map In]. tauto.
Qed.
